(** * GridOrder: the rebalancing strategy of hummingbot/strategy/grid_order

    A shallow embedding of [grid_order.py].  Python floats are IEEE 754
    binary64 values ([spec_float] with precision 53 and maximal exponent
    1024), [decimal.Decimal] values are sign/coefficient/exponent triples,
    Python integers are [Z].  A Python exception is an explicit error
    result; a method that mutates [self] returns the new strategy object;
    calls on the connector (cancel, notify, log) are collected as a list of
    effects. *)

From Stdlib Require Import ZArith Bool List String Lia.
From Stdlib Require Import Floats.SpecFloat.
From Stdlib Require Import Ascii.
Import ListNotations.

Local Open Scope Z_scope.

(** ** Exceptions *)

Inductive exn : Type :=
| ZeroDivisionError      (* float division by zero *)
| InvalidOperation.      (* decimal: ordering comparison involving NaN *)

Inductive result (A : Type) : Type :=
| Ok (a : A)
| Raise (e : exn).

Arguments Ok {A} a.
Arguments Raise {A} e.

Definition bind {A B : Type} (r : result A) (k : A -> result B) : result B :=
  match r with
  | Ok a => k a
  | Raise e => Raise e
  end.

Declare Scope py_scope.
Delimit Scope py_scope with py.
Notation "x <- r ;; k" := (bind r (fun x => k))
  (at level 61, r at next level, right associativity) : py_scope.
Local Open Scope py_scope.

(** ** Python floats *)

Module PyFloat.

Definition prec : Z := 53.
Definition emax : Z := 1024.

Definition float : Type := spec_float.

(** [float(n)] for an integer literal [n]. *)
Definition of_Z (n : Z) : float := binary_normalize prec emax n 0 false.

Definition zero : float := S754_zero false.
Definition hundred : float := Eval cbv in of_Z 100.

Definition add (x y : float) : float := SFadd prec emax x y.
Definition sub (x y : float) : float := SFsub prec emax x y.
Definition mul (x y : float) : float := SFmul prec emax x y.

Definition is_zero (x : float) : bool :=
  match x with
  | S754_zero _ => true
  | _ => false
  end.

(** [math.isnan]. *)
Definition isnan (x : float) : bool :=
  match x with
  | S754_nan => true
  | _ => false
  end.

(** [math.isfinite]. *)
Definition isfinite (x : float) : bool :=
  match x with
  | S754_zero _ | S754_finite _ _ _ => true
  | _ => false
  end.

(** [x / y]: Python raises on a zero divisor, of either sign. *)
Definition truediv (x y : float) : result float :=
  if is_zero y then Raise ZeroDivisionError else Ok (SFdiv prec emax x y).

Definition ltb (x y : float) : bool := SFltb x y.
Definition leb (x y : float) : bool := SFleb x y.
Definition gtb (x y : float) : bool := ltb y x.
Definition geb (x y : float) : bool := leb y x.

(** [min(a, b)] of the builtins: the first argument is kept unless the
    second compares strictly below it. *)
Definition min (a b : float) : float := if ltb b a then b else a.

(** The text produced by ["{:.2f}".format(x)]: a sign and a number of
    hundredths, or one of the special spellings. *)
Inductive fixed2 : Type :=
| F2nan
| F2inf (neg : bool)
| F2digits (neg : bool) (hundredths : N).

(** Nearest integer to [n / d], ties to the even one. *)
Definition div_half_even (n d : Z) : Z :=
  let q := n / d in
  let r := n mod d in
  match (2 * r ?= d) with
  | Lt => q
  | Gt => q + 1
  | Eq => if Z.even q then q else q + 1
  end.

Definition format_2f (x : float) : fixed2 :=
  match x with
  | S754_nan => F2nan
  | S754_infinity s => F2inf s
  | S754_zero s => F2digits s 0
  | S754_finite s m e =>
      let h := match e with
               | Zneg p => div_half_even (Zpos m * 100) (Z.pow_pos 2 p)
               | _ => Zpos m * 100 * 2 ^ e
               end in
      F2digits s (Z.to_N h)
  end.

(** [float(text)] on such a text: the binary64 value nearest to the
    decimal one. *)
Definition of_fixed2 (t : fixed2) : float :=
  match t with
  | F2nan => S754_nan
  | F2inf s => S754_infinity s
  | F2digits s N0 => S754_zero s
  | F2digits s (Npos h) =>
      SFdiv prec emax (S754_finite s h 0) (S754_finite false 100 0)
  end.

End PyFloat.

Import PyFloat.

(** ** decimal.Decimal *)

Module PyDecimal.

(** A decimal is a NaN, a signed infinity, or [(-1)^neg * coeff * 10^exp]. *)
Inductive Decimal : Type :=
| Dnan
| Dinf (neg : bool)
| Dfin (neg : bool) (coeff : N) (exp : Z).

Definition is_nan (d : Decimal) : bool :=
  match d with
  | Dnan => true
  | _ => false
  end.

(** [Decimal.__float__]: [float(str(d))], the nearest binary64 value. *)
Definition to_float (d : Decimal) : float :=
  match d with
  | Dnan => S754_nan
  | Dinf s => S754_infinity s
  | Dfin s N0 _ => S754_zero s
  | Dfin s (Npos c) e =>
      match e with
      | Zneg p =>
          SFdiv prec emax (S754_finite s c 0)
                (S754_finite false (Pos.pow 10 p) 0)
      | _ => binary_round prec emax s (c * Z.to_pos (10 ^ e)) 0
      end
  end.

(** [float.as_integer_ratio] keeps the fraction [m / 2^k] in lowest terms. *)
Fixpoint lowest_terms (m : positive) (k : Z) : positive * Z :=
  match m with
  | xO p => if 0 <? k then lowest_terms p (k - 1) else (m, k)
  | _ => (m, k)
  end.

(** [Decimal(f)] for a float [f] ([Decimal.from_float]): exact. *)
Definition from_float (f : float) : Decimal :=
  match f with
  | S754_nan => Dnan
  | S754_infinity s => Dinf s
  | S754_zero s => Dfin s 0 0
  | S754_finite s m e =>
      match e with
      | Zneg p =>
          let '(n, k) := lowest_terms m (Zpos p) in
          Dfin s (Z.to_N (Zpos n * 5 ^ k)) (- k)
      | _ => Dfin s (Z.to_N (Zpos m * 2 ^ e)) 0
      end
  end.

Definition signed (neg : bool) (c : N) : Z :=
  if neg then - Z.of_N c else Z.of_N c.

(** [Decimal._cmp] on two decimals that are not NaN. *)
Definition cmp (a b : Decimal) : comparison :=
  match a, b with
  | Dnan, _ | _, Dnan => Eq
  | Dinf sa, Dinf sb =>
      match sa, sb with
      | true, false => Lt
      | false, true => Gt
      | _, _ => Eq
      end
  | Dinf s, Dfin _ _ _ => if s then Lt else Gt
  | Dfin _ _ _, Dinf s => if s then Gt else Lt
  | Dfin sa ca ea, Dfin sb cb eb =>
      let e0 := Z.min ea eb in
      (signed sa ca * 10 ^ (ea - e0) ?= signed sb cb * 10 ^ (eb - e0))
  end.

(** [d >= f] and [d <= f] with a float on the right: the float is
    converted exactly; a NaN on either side signals InvalidOperation,
    which the default context traps. *)
Definition ge_float (d : Decimal) (f : float) : result bool :=
  let other := from_float f in
  if is_nan d || is_nan other then Raise InvalidOperation
  else Ok (match cmp d other with Lt => false | _ => true end).

Definition le_float (d : Decimal) (f : float) : result bool :=
  let other := from_float f in
  if is_nan d || is_nan other then Raise InvalidOperation
  else Ok (match cmp d other with Gt => false | _ => true end).

End PyDecimal.

Import PyDecimal.

(** ** Data types of the strategy and of its collaborators *)

(** [hummingbot.core.event.events]: [PriceType] and [TradeType]. *)
Inductive PriceType : Type :=
| MidPrice
| BestBid
| BestAsk
| LastTrade
| LastOwnTrade
| InventoryCost
| Custom.

Inductive TradeType : Type :=
| BUY
| SELL.

(** [data_types.PriceSize] and [data_types.Proposal]. *)
Record PriceSize : Type := mkPriceSize {
  price : Decimal;
  size : Decimal
}.

Record Proposal : Type := mkProposal {
  buys : list PriceSize;
  sells : list PriceSize
}.

(** The fields of [LimitOrder] the strategy reads. *)
Record LimitOrder : Type := mkLimitOrder {
  client_order_id : string;
  is_buy : bool;
  order_price : Decimal;
  quantity : Decimal;
  base_currency : string;
  quote_currency : string
}.

(** The connector, for the one trading pair of the strategy. *)
Record Market : Type := mkMarket {
  get_price_by_type : PriceType -> Decimal
}.

(** [MarketTradingPairTuple] and [AssetPriceDelegate] both expose
    [.market]. *)
Record PriceProvider : Type := mkPriceProvider {
  market : Market
}.

(** [GridOrderTracker]: the ledger of tracked limit orders. *)
Record GridOrderTracker : Type := mkTracker {
  get_limit_order : string -> option LimitOrder;
  market_pair_to_active_orders : option (list LimitOrder)
}.

Record HangingOrdersTracker : Type := mkHanging {
  is_order_id_in_hanging_orders : string -> bool
}.

Record OrderCompletedEvent : Type := mkCompleted {
  order_id : string
}.

(** What a handler asks of the outside world. *)
Inductive effect : Type :=
| cancel_order (client_order_id : string)
| log_with_clock (side : TradeType) (order_id : string) (o : LimitOrder)
| notify_hb_app_with_timestamp (side : TradeType) (o : LimitOrder).

(** The strategy object: the attributes set by [__init__] that the
    methods below read or write, and the clock reading
    [current_timestamp] of the base class. *)
Record GridOrder : Type := mkGridOrder {
  _market_info : PriceProvider;
  _price_ceiling : float;
  _price_floor : float;
  _base_percentage : float;
  _quote_percentage : float;
  _rebalance_percentage : float;
  _hanging_orders_tracker : HangingOrdersTracker;
  _sb_order_tracker : GridOrderTracker;
  _price_type : PriceType;
  _asset_price_delegate : option PriceProvider;
  _order_refresh_time : float;
  _max_order_age : float;
  _filled_order_delay : float;
  _cancel_timestamp : float;
  _create_timestamp : float;
  _filled_buys_balance : Z;
  _filled_sells_balance : Z;
  _last_own_trade_price : Decimal;
  _order_amount : float;
  current_timestamp : float
}.

(** Attribute assignment, [self.<attribute> = v]. *)

Definition set_cancel_timestamp (v : float) (self : GridOrder) : GridOrder :=
  {| _market_info := _market_info self;
    _price_ceiling := _price_ceiling self;
    _price_floor := _price_floor self;
    _base_percentage := _base_percentage self;
    _quote_percentage := _quote_percentage self;
    _rebalance_percentage := _rebalance_percentage self;
    _hanging_orders_tracker := _hanging_orders_tracker self;
    _sb_order_tracker := _sb_order_tracker self;
    _price_type := _price_type self;
    _asset_price_delegate := _asset_price_delegate self;
    _order_refresh_time := _order_refresh_time self;
    _max_order_age := _max_order_age self;
    _filled_order_delay := _filled_order_delay self;
    _cancel_timestamp := v;
    _create_timestamp := _create_timestamp self;
    _filled_buys_balance := _filled_buys_balance self;
    _filled_sells_balance := _filled_sells_balance self;
    _last_own_trade_price := _last_own_trade_price self;
    _order_amount := _order_amount self;
    current_timestamp := current_timestamp self |}.

Definition set_create_timestamp (v : float) (self : GridOrder) : GridOrder :=
  {| _market_info := _market_info self;
    _price_ceiling := _price_ceiling self;
    _price_floor := _price_floor self;
    _base_percentage := _base_percentage self;
    _quote_percentage := _quote_percentage self;
    _rebalance_percentage := _rebalance_percentage self;
    _hanging_orders_tracker := _hanging_orders_tracker self;
    _sb_order_tracker := _sb_order_tracker self;
    _price_type := _price_type self;
    _asset_price_delegate := _asset_price_delegate self;
    _order_refresh_time := _order_refresh_time self;
    _max_order_age := _max_order_age self;
    _filled_order_delay := _filled_order_delay self;
    _cancel_timestamp := _cancel_timestamp self;
    _create_timestamp := v;
    _filled_buys_balance := _filled_buys_balance self;
    _filled_sells_balance := _filled_sells_balance self;
    _last_own_trade_price := _last_own_trade_price self;
    _order_amount := _order_amount self;
    current_timestamp := current_timestamp self |}.

Definition set_filled_buys_balance (v : Z) (self : GridOrder) : GridOrder :=
  {| _market_info := _market_info self;
    _price_ceiling := _price_ceiling self;
    _price_floor := _price_floor self;
    _base_percentage := _base_percentage self;
    _quote_percentage := _quote_percentage self;
    _rebalance_percentage := _rebalance_percentage self;
    _hanging_orders_tracker := _hanging_orders_tracker self;
    _sb_order_tracker := _sb_order_tracker self;
    _price_type := _price_type self;
    _asset_price_delegate := _asset_price_delegate self;
    _order_refresh_time := _order_refresh_time self;
    _max_order_age := _max_order_age self;
    _filled_order_delay := _filled_order_delay self;
    _cancel_timestamp := _cancel_timestamp self;
    _create_timestamp := _create_timestamp self;
    _filled_buys_balance := v;
    _filled_sells_balance := _filled_sells_balance self;
    _last_own_trade_price := _last_own_trade_price self;
    _order_amount := _order_amount self;
    current_timestamp := current_timestamp self |}.

Definition set_filled_sells_balance (v : Z) (self : GridOrder) : GridOrder :=
  {| _market_info := _market_info self;
    _price_ceiling := _price_ceiling self;
    _price_floor := _price_floor self;
    _base_percentage := _base_percentage self;
    _quote_percentage := _quote_percentage self;
    _rebalance_percentage := _rebalance_percentage self;
    _hanging_orders_tracker := _hanging_orders_tracker self;
    _sb_order_tracker := _sb_order_tracker self;
    _price_type := _price_type self;
    _asset_price_delegate := _asset_price_delegate self;
    _order_refresh_time := _order_refresh_time self;
    _max_order_age := _max_order_age self;
    _filled_order_delay := _filled_order_delay self;
    _cancel_timestamp := _cancel_timestamp self;
    _create_timestamp := _create_timestamp self;
    _filled_buys_balance := _filled_buys_balance self;
    _filled_sells_balance := v;
    _last_own_trade_price := _last_own_trade_price self;
    _order_amount := _order_amount self;
    current_timestamp := current_timestamp self |}.

Definition set_last_own_trade_price (v : Decimal) (self : GridOrder) : GridOrder :=
  {| _market_info := _market_info self;
    _price_ceiling := _price_ceiling self;
    _price_floor := _price_floor self;
    _base_percentage := _base_percentage self;
    _quote_percentage := _quote_percentage self;
    _rebalance_percentage := _rebalance_percentage self;
    _hanging_orders_tracker := _hanging_orders_tracker self;
    _sb_order_tracker := _sb_order_tracker self;
    _price_type := _price_type self;
    _asset_price_delegate := _asset_price_delegate self;
    _order_refresh_time := _order_refresh_time self;
    _max_order_age := _max_order_age self;
    _filled_order_delay := _filled_order_delay self;
    _cancel_timestamp := _cancel_timestamp self;
    _create_timestamp := _create_timestamp self;
    _filled_buys_balance := _filled_buys_balance self;
    _filled_sells_balance := _filled_sells_balance self;
    _last_own_trade_price := v;
    _order_amount := _order_amount self;
    current_timestamp := current_timestamp self |}.

Definition set_order_amount (v : float) (self : GridOrder) : GridOrder :=
  {| _market_info := _market_info self;
    _price_ceiling := _price_ceiling self;
    _price_floor := _price_floor self;
    _base_percentage := _base_percentage self;
    _quote_percentage := _quote_percentage self;
    _rebalance_percentage := _rebalance_percentage self;
    _hanging_orders_tracker := _hanging_orders_tracker self;
    _sb_order_tracker := _sb_order_tracker self;
    _price_type := _price_type self;
    _asset_price_delegate := _asset_price_delegate self;
    _order_refresh_time := _order_refresh_time self;
    _max_order_age := _max_order_age self;
    _filled_order_delay := _filled_order_delay self;
    _cancel_timestamp := _cancel_timestamp self;
    _create_timestamp := _create_timestamp self;
    _filled_buys_balance := _filled_buys_balance self;
    _filled_sells_balance := _filled_sells_balance self;
    _last_own_trade_price := _last_own_trade_price self;
    _order_amount := v;
    current_timestamp := current_timestamp self |}.

(** The clock moves to [v]. *)
Definition set_current_timestamp (v : float) (self : GridOrder) : GridOrder :=
  {| _market_info := _market_info self;
    _price_ceiling := _price_ceiling self;
    _price_floor := _price_floor self;
    _base_percentage := _base_percentage self;
    _quote_percentage := _quote_percentage self;
    _rebalance_percentage := _rebalance_percentage self;
    _hanging_orders_tracker := _hanging_orders_tracker self;
    _sb_order_tracker := _sb_order_tracker self;
    _price_type := _price_type self;
    _asset_price_delegate := _asset_price_delegate self;
    _order_refresh_time := _order_refresh_time self;
    _max_order_age := _max_order_age self;
    _filled_order_delay := _filled_order_delay self;
    _cancel_timestamp := _cancel_timestamp self;
    _create_timestamp := _create_timestamp self;
    _filled_buys_balance := _filled_buys_balance self;
    _filled_sells_balance := _filled_sells_balance self;
    _last_own_trade_price := _last_own_trade_price self;
    _order_amount := _order_amount self;
    current_timestamp := v |}.

(** The order tracker as the connector's events have left it. *)
Definition set_sb_order_tracker (v : GridOrderTracker) (self : GridOrder) : GridOrder :=
  {| _market_info := _market_info self;
    _price_ceiling := _price_ceiling self;
    _price_floor := _price_floor self;
    _base_percentage := _base_percentage self;
    _quote_percentage := _quote_percentage self;
    _rebalance_percentage := _rebalance_percentage self;
    _hanging_orders_tracker := _hanging_orders_tracker self;
    _sb_order_tracker := v;
    _price_type := _price_type self;
    _asset_price_delegate := _asset_price_delegate self;
    _order_refresh_time := _order_refresh_time self;
    _max_order_age := _max_order_age self;
    _filled_order_delay := _filled_order_delay self;
    _cancel_timestamp := _cancel_timestamp self;
    _create_timestamp := _create_timestamp self;
    _filled_buys_balance := _filled_buys_balance self;
    _filled_sells_balance := _filled_sells_balance self;
    _last_own_trade_price := _last_own_trade_price self;
    _order_amount := _order_amount self;
    current_timestamp := current_timestamp self |}.

(** ** Python idioms *)

(** A name bound first to a [Decimal] and later to a [float]. *)
Inductive number : Type :=
| NumDecimal (d : Decimal)
| NumFloat (f : float).

(** [float(x)] *)
Definition float_of (x : number) : float :=
  match x with
  | NumDecimal d => to_float d
  | NumFloat f => f
  end.

(** [Decimal(x)] *)
Definition Decimal_of (x : number) : Decimal :=
  match x with
  | NumDecimal d => d
  | NumFloat f => from_float f
  end.

(** [range(lo, hi)] *)
Definition range (lo hi : nat) : list nat := seq lo (hi - lo).

(** [for x in xs: body], threading the variables the body assigns. *)
Fixpoint for_each {A S : Type} (xs : list A) (body : A -> S -> result S)
  (s : S) : result S :=
  match xs with
  | [] => Ok s
  | x :: xs' => s' <- body x s ;; for_each xs' body s'
  end.

(** [float("{:.2f}".format(x))] *)
Definition round_2f (x : float) : float := of_fixed2 (format_2f x).

(** ** The methods of [GridOrder] *)

(** [__init__] sets both to 1 and nothing assigns them afterwards. *)
Definition _buy_levels : nat := 1.
Definition _sell_levels : nat := 1.

Definition price_ceiling (self : GridOrder) : float := _price_ceiling self.
Definition price_floor (self : GridOrder) : float := _price_floor self.

Definition active_orders (self : GridOrder) : list LimitOrder :=
  match market_pair_to_active_orders (_sb_order_tracker self) with
  | None => []
  | Some orders => orders
  end.

Definition active_non_hanging_orders (self : GridOrder) : list LimitOrder :=
  filter (fun o => negb (is_order_id_in_hanging_orders
                           (_hanging_orders_tracker self) (client_order_id o)))
         (active_orders self).

(** [self._asset_price_delegate or self._market_info] *)
Definition price_provider (self : GridOrder) : PriceProvider :=
  match _asset_price_delegate self with
  | Some delegate => delegate
  | None => _market_info self
  end.

(** The first [if]/[elif]/[else] of [get_price]: the price of the
    configured type. *)
Definition selected_price (self : GridOrder) : Decimal :=
  match _price_type self with
  | LastOwnTrade => _last_own_trade_price self
  | InventoryCost => get_price_by_type (market (price_provider self)) MidPrice
  | other => get_price_by_type (market (price_provider self)) other
  end.

Definition get_price (self : GridOrder) : Decimal :=
  let price := selected_price self in
  if is_nan price
  then get_price_by_type (market (price_provider self)) MidPrice
  else price.

(** One pass of the loop over buy levels.  The variables it assigns are
    [buy_reference_price], [buys] and [self._order_amount]. *)
Definition buy_level (quote_balance : float) (level : nat)
  (vars : number * list PriceSize * GridOrder)
  : result (number * list PriceSize * GridOrder) :=
  let '(buy_reference_price, buys, self) := vars in
  let price := buy_reference_price in
  let buy_reference_price := float_of buy_reference_price in
  per_cent <- truediv (mul quote_balance (_rebalance_percentage self)) hundred ;;
  amount <- truediv per_cent buy_reference_price ;;
  let size := round_2f amount in
  if gtb size zero
  then Ok (NumFloat buy_reference_price,
           buys ++ [mkPriceSize (Decimal_of price) (from_float size)],
           set_order_amount size self)
  else Ok (NumFloat buy_reference_price, buys, self).

(** One pass of the loop over sell levels. *)
Definition sell_level (base_balance : float) (sell_reference_price : Decimal)
  (level : nat) (vars : list PriceSize * GridOrder)
  : result (list PriceSize * GridOrder) :=
  let '(sells, self) := vars in
  let price := sell_reference_price in
  per_cent <- truediv (mul base_balance (_rebalance_percentage self)) hundred ;;
  let size := round_2f per_cent in
  if gtb size zero
  then Ok (sells ++ [mkPriceSize price (from_float size)],
           set_order_amount size self)
  else Ok (sells, self).

Definition create_base_proposal (self : GridOrder)
  (base_balance quote_balance : float) : result (Proposal * GridOrder) :=
  let market := market (_market_info self) in
  let buys := [] in
  let sells := [] in
  let buy_reference_price := get_price_by_type market BestBid in
  let sell_reference_price := get_price_by_type market BestAsk in
  let total_usd := add base_balance quote_balance in
  base_percentage <- truediv (mul hundred base_balance) total_usd ;;
  if negb (is_nan buy_reference_price)
     && ltb base_percentage
            (sub (_base_percentage self) (_rebalance_percentage self))
  then
    vars <- for_each (range 0 _buy_levels) (buy_level quote_balance)
                     (NumDecimal buy_reference_price, buys, self) ;;
    let '(_, buys, self) := vars in
    Ok (mkProposal buys sells, self)
  else if negb (is_nan sell_reference_price)
          && gtb base_percentage
                 (add (_base_percentage self) (_rebalance_percentage self))
  then
    vars <- for_each (range 0 _sell_levels)
                     (sell_level base_balance sell_reference_price)
                     (sells, self) ;;
    let '(sells, self) := vars in
    Ok (mkProposal buys sells, self)
  else Ok (mkProposal buys sells, self).

(** The value of the local [base_percentage] once the division has
    succeeded. *)
Definition base_percentage_of (base_balance quote_balance : float) : float :=
  SFdiv prec emax (mul hundred base_balance) (add base_balance quote_balance).

(** The value of the local [size] in the loop over buy levels, for the
    best bid [bid]. *)
Definition buy_size_of (self : GridOrder) (quote_balance : float)
  (bid : Decimal) : float :=
  round_2f
    (SFdiv prec emax
       (SFdiv prec emax (mul quote_balance (_rebalance_percentage self)) hundred)
       (to_float bid)).

(** [proposal.buys = []; proposal.sells = []] *)
Definition clear (proposal : Proposal) : Proposal :=
  let proposal := mkProposal [] (sells proposal) in
  mkProposal (buys proposal) [].

(** The two statements of [apply_price_band], in order. *)
Definition ceiling_check (self : GridOrder) (proposal : Proposal)
  : result Proposal :=
  if gtb (price_ceiling self) zero
  then breach <- ge_float (get_price self) (price_ceiling self) ;;
       Ok (if breach then clear proposal else proposal)
  else Ok proposal.

Definition floor_check (self : GridOrder) (proposal : Proposal)
  : result Proposal :=
  if gtb (price_floor self) zero
  then breach <- le_float (get_price self) (price_floor self) ;;
       Ok (if breach then clear proposal else proposal)
  else Ok proposal.

Definition apply_price_band (self : GridOrder) (proposal : Proposal)
  : result Proposal :=
  proposal <- ceiling_check self proposal ;;
  floor_check self proposal.

Definition apply_order_levels_modifiers (self : GridOrder)
  (proposal : Proposal) : result Proposal :=
  apply_price_band self proposal.

Definition set_timers (self : GridOrder) : GridOrder :=
  let next_cycle := add (current_timestamp self) (_order_refresh_time self) in
  let self :=
    if leb (_create_timestamp self) (current_timestamp self)
    then set_create_timestamp next_cycle self
    else self in
  let self :=
    if leb (_cancel_timestamp self) (current_timestamp self)
    then set_cancel_timestamp (min (_create_timestamp self) next_cycle) self
    else self in
  self.

Definition did_complete_buy_order (self : GridOrder)
  (order_completed_event : OrderCompletedEvent) : GridOrder * list effect :=
  let order_id := order_id order_completed_event in
  match get_limit_order (_sb_order_tracker self) order_id with
  | None => (self, [])
  | Some limit_order_record =>
      let _ := map client_order_id
                   (filter (fun x => negb (is_buy x)) (active_orders self)) in
      let self :=
        set_create_timestamp
          (add (current_timestamp self) (_filled_order_delay self)) self in
      let self :=
        set_cancel_timestamp
          (min (_cancel_timestamp self) (_create_timestamp self)) self in
      let self := set_filled_buys_balance (_filled_buys_balance self + 1) self in
      let self :=
        set_last_own_trade_price (order_price limit_order_record) self in
      (self,
       [log_with_clock BUY order_id limit_order_record;
        notify_hb_app_with_timestamp BUY limit_order_record])
  end.

Definition did_complete_sell_order (self : GridOrder)
  (order_completed_event : OrderCompletedEvent) : GridOrder * list effect :=
  let order_id := order_id order_completed_event in
  match get_limit_order (_sb_order_tracker self) order_id with
  | None => (self, [])
  | Some limit_order_record =>
      let _ := map client_order_id
                   (filter (fun x => is_buy x) (active_orders self)) in
      let self :=
        set_create_timestamp
          (add (current_timestamp self) (_filled_order_delay self)) self in
      let self :=
        set_cancel_timestamp
          (min (_cancel_timestamp self) (_create_timestamp self)) self in
      let self :=
        set_filled_sells_balance (_filled_sells_balance self + 1) self in
      let self :=
        set_last_own_trade_price (order_price limit_order_record) self in
      (self,
       [log_with_clock SELL order_id limit_order_record;
        notify_hb_app_with_timestamp SELL limit_order_record])
  end.

Section MaxAge.

(** [hummingbot.strategy.utils.order_age]: the age of an order in
    seconds, read off the clock and the order's identifier. *)
Variable order_age : LimitOrder -> float.

Definition cancel_active_orders_on_max_age_limit (self : GridOrder)
  : list effect :=
  let active_orders := active_non_hanging_orders self in
  if negb (Nat.eqb (List.length active_orders) 0)
     && existsb (fun o => gtb (order_age o) (_max_order_age self)) active_orders
  then map (fun order => cancel_order (client_order_id order)) active_orders
  else [].

End MaxAge.

(** ** The life of a strategy object *)

(** The cancel deadline is not after the create deadline. *)
Definition timers_ordered (self : GridOrder) : Prop :=
  leb (_cancel_timestamp self) (_create_timestamp self) = true.

(** What reaches the strategy between two ticks: the clock advances, the
    tracker records the connector's events, orders are submitted and the
    timers armed, fills complete. *)
Inductive event : Type :=
| ClockReading (t : float)
| TrackerUpdate (tracker : GridOrderTracker)
| OrdersCreated
| BuyOrderCompleted (ev : OrderCompletedEvent)
| SellOrderCompleted (ev : OrderCompletedEvent).

Definition handle (self : GridOrder) (e : event) : GridOrder :=
  match e with
  | ClockReading t => set_current_timestamp t self
  | TrackerUpdate tracker => set_sb_order_tracker tracker self
  | OrdersCreated => set_timers self
  | BuyOrderCompleted ev => fst (did_complete_buy_order self ev)
  | SellOrderCompleted ev => fst (did_complete_sell_order self ev)
  end.

Definition run (self : GridOrder) (events : list event) : GridOrder :=
  fold_left handle events self.

(** A clock reading is a finite number. *)
Definition well_timed (e : event) : bool :=
  match e with
  | ClockReading t => isfinite t
  | _ => true
  end.

(** The invariant carried along a run: ordered timers, a finite clock and
    finite periods. *)
Definition steady (self : GridOrder) : Prop :=
  timers_ordered self
  /\ isfinite (current_timestamp self) = true
  /\ isfinite (_order_refresh_time self) = true
  /\ isfinite (_filled_order_delay self) = true.

(** ** Construction, and the objects the examples run on *)

(** [GridOrder(market_info, price_ceiling, price_floor, base_percentage,
    quote_percentage, rebalance_percentage, cmap)] with the defaults of
    the other parameters, the price type already resolved by
    [get_price_type]; [clock] is the reading of the clock. *)
Definition new_strategy (market_info : PriceProvider)
  (price_ceiling price_floor : Decimal)
  (base_percentage quote_percentage rebalance_percentage : Decimal)
  (price_type : PriceType) (clock : float) : GridOrder :=
  {| _market_info := market_info;
     _price_ceiling := to_float price_ceiling;
     _price_floor := to_float price_floor;
     _base_percentage := to_float base_percentage;
     _quote_percentage := to_float quote_percentage;
     _rebalance_percentage := to_float rebalance_percentage;
     _hanging_orders_tracker := mkHanging (fun _ => false);
     _sb_order_tracker := mkTracker (fun _ => None) None;
     _price_type := price_type;
     _asset_price_delegate := None;
     _order_refresh_time := of_Z 30;
     _max_order_age := of_Z 30;
     _filled_order_delay := of_Z 60;
     _cancel_timestamp := zero;
     _create_timestamp := zero;
     _filled_buys_balance := 0;
     _filled_sells_balance := 0;
     _last_own_trade_price := Dnan;
     _order_amount := zero;
     current_timestamp := clock |}.

(** [Decimal(n)] for an integer [n]. *)
Definition dec (n : Z) : Decimal := Dfin (n <? 0) (Z.abs_N n) 0.

Definition order_book (bid ask mid : Decimal) : Market :=
  mkMarket (fun t =>
              match t with
              | BestBid => bid
              | BestAsk => ask
              | _ => mid
              end).

(** Best bid 100, best ask 101, mid 100.5. *)
Definition book_100 : PriceProvider :=
  mkPriceProvider (order_book (dec 100) (dec 101) (Dfin false 1005 (-1))).

(** An empty order book: every price is NaN. *)
Definition empty_book : PriceProvider :=
  mkPriceProvider (order_book Dnan Dnan Dnan).

(** Target 50/50, tolerance 1, no price band. *)
Definition strategy_50_50 (clock : float) : GridOrder :=
  new_strategy book_100 (dec 0) (dec 0) (dec 50) (dec 50) (dec 1)
               MidPrice clock.

(** The same with the price band [50, 100]. *)
Definition strategy_banded (clock : float) : GridOrder :=
  new_strategy book_100 (dec 100) (dec 50) (dec 50) (dec 50) (dec 1)
               BestBid clock.

Definition buy_order_7 : LimitOrder :=
  mkLimitOrder "buy-7" true (dec 100) (Dfin false 1 (-1)) "ETH" "USDT".

Definition sell_order_8 : LimitOrder :=
  mkLimitOrder "sell-8" false (dec 101) (Dfin false 1 (-1)) "ETH" "USDT".

(** A tracker holding the two orders above. *)
Definition tracker_7_8 : GridOrderTracker :=
  mkTracker (fun id =>
               if String.eqb id "buy-7" then Some buy_order_7
               else if String.eqb id "sell-8" then Some sell_order_8
               else None)
            (Some [buy_order_7; sell_order_8]).

(** Orders are created at 10, the buy order fills at 20, and the clock
    reaches 30: the create deadline is then 80 and the cancel deadline 40. *)
Definition strategy_armed_ahead : GridOrder :=
  run (strategy_50_50 (of_Z 10))
      [OrdersCreated;
       TrackerUpdate tracker_7_8;
       ClockReading (of_Z 20);
       BuyOrderCompleted (mkCompleted "buy-7");
       ClockReading (of_Z 30)].

(** ** The order of floats, for the proofs

    [SFcompare] orders the floats that are not NaN as the lexicographic
    order of these triples: the class (negative infinity, negative, zero,
    positive, positive infinity), then exponent and mantissa, both negated
    for a negative float. *)

Definition rank (x : float) : Z * Z * Z :=
  match x with
  | S754_nan => (0, 0, 0)
  | S754_zero _ => (0, 0, 0)
  | S754_infinity true => (-2, 0, 0)
  | S754_infinity false => (2, 0, 0)
  | S754_finite false m e => (1, e, Zpos m)
  | S754_finite true m e => (-1, - e, Zneg m)
  end.

Definition lt3 (a b : Z * Z * Z) : Prop :=
  let '(a1, a2, a3) := a in
  let '(b1, b2, b3) := b in
  a1 < b1 \/ (a1 = b1 /\ (a2 < b2 \/ (a2 = b2 /\ a3 < b3))).

Definition le3 (a b : Z * Z * Z) : Prop :=
  let '(a1, a2, a3) := a in
  let '(b1, b2, b3) := b in
  a1 < b1 \/ (a1 = b1 /\ (a2 < b2 \/ (a2 = b2 /\ a3 <= b3))).

(** ** The rest of [grid_order.py] and the trading pair of [start.py] *)

(** A call that returns, or raises ValueError with a message. *)
Inductive or_ValueError (A : Type) : Type :=
| Returned (a : A)
| ValueError (message : string).

Arguments Returned {A} a.
Arguments ValueError {A} message.

Definition get_price_type (price_type_str : string) : or_ValueError PriceType :=
  if String.eqb price_type_str "mid_price" then Returned MidPrice
  else if String.eqb price_type_str "best_bid" then Returned BestBid
  else if String.eqb price_type_str "best_ask" then Returned BestAsk
  else if String.eqb price_type_str "last_price" then Returned LastTrade
  else if String.eqb price_type_str "last_own_trade_price"
       then Returned LastOwnTrade
  else if String.eqb price_type_str "inventory_cost"
       then Returned InventoryCost
  else if String.eqb price_type_str "custom" then Returned Custom
  else ValueError (String.append "Unrecognized price type string "
                     (String.append price_type_str ".")).

(** [s.split(sep)] for a separator of one character. *)
Fixpoint split (sep : Ascii.ascii) (s : string) : list string :=
  match s with
  | EmptyString => [EmptyString]
  | String c rest =>
      if Ascii.eqb c sep then EmptyString :: split sep rest
      else match split sep rest with
           | head :: tail => String c head :: tail
           | [] => [String c EmptyString]
           end
  end.

(** [sep.join(parts)] *)
Fixpoint join (sep : Ascii.ascii) (parts : list string) : string :=
  match parts with
  | [] => EmptyString
  | [part] => part
  | part :: parts' => String.append part (String sep (join sep parts'))
  end.

(** [sep in s] *)
Fixpoint contains (sep : Ascii.ascii) (s : string) : bool :=
  match s with
  | EmptyString => false
  | String c rest => Ascii.eqb c sep || contains sep rest
  end.

(** [base, quote = market.split("-")] of [start]. *)
Definition base_and_quote (market : string) : or_ValueError (string * string) :=
  match split "-"%char market with
  | [base; quote] => Returned (base, quote)
  | [] | [_] => ValueError "not enough values to unpack (expected 2, got 1)"
  | _ => ValueError "too many values to unpack (expected 2)"
  end.

(** The ratios of [pure_mm_assets_df], before they are formatted: the
    balances and the mid price come from the connector. *)
Definition asset_ratios (balance_base balance_quote price : Decimal)
  : result (float * float) :=
  let base_balance := to_float balance_base in
  let quote_balance := to_float balance_quote in
  let base_value := mul base_balance (to_float price) in
  let total_in_quote := add base_value quote_balance in
  base_ratio <- (if gtb total_in_quote zero
                 then truediv base_value total_in_quote
                 else Ok zero) ;;
  quote_ratio <- (if gtb total_in_quote zero
                  then truediv quote_balance total_in_quote
                  else Ok zero) ;;
  Ok (base_ratio, quote_ratio).

(** What [tick] reads of the connector besides prices. *)
Record Connector : Type := mkConnector {
  ready : bool;
  get_available_balance : string -> Decimal
}.

(** What [to_create_orders] reads of the trackers besides the active
    orders. *)
Record Ledger : Type := mkLedger {
  in_flight_cancels : list string;
  is_potential_hanging_order : LimitOrder -> bool
}.

(** The strategy object with the attributes the tick path adds to those
    of [GridOrder]. *)
Record Strategy : Type := mkStrategy {
  grid : GridOrder;
  base_asset : string;
  quote_asset : string;
  _connector_ready : bool;
  _last_timestamp : float;
  _logging_options : Z;
  _should_wait_order_cancel_confirmation : bool
}.

Definition set_grid (v : GridOrder) (s : Strategy) : Strategy :=
  {| grid := v;
     base_asset := base_asset s;
     quote_asset := quote_asset s;
     _connector_ready := _connector_ready s;
     _last_timestamp := _last_timestamp s;
     _logging_options := _logging_options s;
     _should_wait_order_cancel_confirmation :=
       _should_wait_order_cancel_confirmation s |}.

Definition set_connector_ready (v : bool) (s : Strategy) : Strategy :=
  {| grid := grid s;
     base_asset := base_asset s;
     quote_asset := quote_asset s;
     _connector_ready := v;
     _last_timestamp := _last_timestamp s;
     _logging_options := _logging_options s;
     _should_wait_order_cancel_confirmation :=
       _should_wait_order_cancel_confirmation s |}.

Definition set_last_timestamp (v : float) (s : Strategy) : Strategy :=
  {| grid := grid s;
     base_asset := base_asset s;
     quote_asset := quote_asset s;
     _connector_ready := _connector_ready s;
     _last_timestamp := v;
     _logging_options := _logging_options s;
     _should_wait_order_cancel_confirmation :=
       _should_wait_order_cancel_confirmation s |}.

(** The hanging orders tracker as its own events have left it. *)
Definition set_hanging_orders_tracker (v : HangingOrdersTracker)
  (self : GridOrder) : GridOrder :=
  {| _market_info := _market_info self;
    _price_ceiling := _price_ceiling self;
    _price_floor := _price_floor self;
    _base_percentage := _base_percentage self;
    _quote_percentage := _quote_percentage self;
    _rebalance_percentage := _rebalance_percentage self;
    _hanging_orders_tracker := v;
    _sb_order_tracker := _sb_order_tracker self;
    _price_type := _price_type self;
    _asset_price_delegate := _asset_price_delegate self;
    _order_refresh_time := _order_refresh_time self;
    _max_order_age := _max_order_age self;
    _filled_order_delay := _filled_order_delay self;
    _cancel_timestamp := _cancel_timestamp self;
    _create_timestamp := _create_timestamp self;
    _filled_buys_balance := _filled_buys_balance self;
    _filled_sells_balance := _filled_sells_balance self;
    _last_own_trade_price := _last_own_trade_price self;
    _order_amount := _order_amount self;
    current_timestamp := current_timestamp self |}.

(** What [tick] and the methods it calls ask of the outside world. *)
Inductive action : Type :=
| logger_warning_not_ready
| logger_info_creating (side : TradeType) (legs : list PriceSize)
| buy_with_specific_market (amount price : Decimal)
    (expiration_seconds : float)
| sell_with_specific_market (amount price : Decimal)
    (expiration_seconds : float)
| strategy_effect (e : effect).

Definition OPTION_LOG_CREATE_ORDER : Z := Z.shiftl 1 3.

Definition to_create_orders (s : Strategy) (ledger : Ledger)
  (proposal : option Proposal) : bool :=
  let non_hanging_orders_non_cancelled :=
    filter (fun o => negb (is_potential_hanging_order ledger o))
           (active_non_hanging_orders (grid s)) in
  ltb (_create_timestamp (grid s)) (current_timestamp (grid s))
  && (negb (_should_wait_order_cancel_confirmation s)
      || Nat.eqb (List.length (in_flight_cancels ledger)) 0)
  && (match proposal with Some _ => true | None => false end)
  && Nat.eqb (List.length non_hanging_orders_non_cancelled) 0.

(** The limit order requested for a leg, expiring after
    [self._order_refresh_time]. *)
Definition order_request (s : Strategy) (side : TradeType) (leg : PriceSize)
  : action :=
  let expiration_seconds := _order_refresh_time (grid s) in
  match side with
  | BUY => buy_with_specific_market (size leg) (price leg) expiration_seconds
  | SELL => sell_with_specific_market (size leg) (price leg) expiration_seconds
  end.

(** One side of [execute_orders_proposal]: the log line when the option
    is set, then one order per leg. *)
Definition submit_side (s : Strategy) (side : TradeType)
  (legs : list PriceSize) (orders_created : bool) : bool * list action :=
  if Nat.ltb 0 (List.length legs)
  then
    let log :=
      if Z.eqb (Z.land (_logging_options s) OPTION_LOG_CREATE_ORDER) 0
      then []
      else [logger_info_creating side legs] in
    fold_left
      (fun (vars : bool * list action) (leg : PriceSize) =>
         let '(_, out) := vars in
         (true, out ++ [order_request s side leg]))
      legs (orders_created, log)
  else (orders_created, []).

Definition execute_orders_proposal (s : Strategy) (proposal : Proposal)
  : Strategy * list action :=
  let orders_created := false in
  let '(orders_created, bids) :=
    submit_side s BUY (buys proposal) orders_created in
  let '(orders_created, asks) :=
    submit_side s SELL (sells proposal) orders_created in
  let s := if orders_created then set_grid (set_timers (grid s)) s else s in
  (s, bids ++ asks).

(** The collaborators as [tick] finds them: the connector, the trackers
    once [process_tick] has run, and the trackers once the cancellations
    of this tick have been requested. *)
Record Surroundings : Type := mkSurroundings {
  connector : Connector;
  after_process_tick : GridOrderTracker * HangingOrdersTracker;
  after_cancels :
    list effect -> GridOrderTracker * HangingOrdersTracker * Ledger
}.

(** The trackers of [self] are the ones seen now. *)
Definition look (seen : GridOrderTracker * HangingOrdersTracker)
  (s : Strategy) : Strategy :=
  set_grid (set_hanging_orders_tracker (snd seen)
              (set_sb_order_tracker (fst seen) (grid s))) s.

(** [tick], lines 191-192: the readiness of the connector is looked up
    until it has been seen ready once. *)
Definition latch_ready (s : Strategy) (around : Surroundings) : Strategy :=
  if negb (_connector_ready s)
  then set_connector_ready (ready (connector around)) s
  else s.

(** [tick], lines 199-214: the proposal of this tick, [None] before the
    create deadline, or the exception raised on the way; with it the
    strategy object as these lines leave it. *)
Definition propose (s : Strategy) (around : Surroundings)
  : Strategy * result (option Proposal) :=
  if leb (_create_timestamp (grid s)) (current_timestamp (grid s))
  then
    let base_quantity :=
      to_float (get_available_balance (connector around) (base_asset s)) in
    let base_balance := mul base_quantity (to_float (get_price (grid s))) in
    let quote_balance :=
      to_float (get_available_balance (connector around) (quote_asset s)) in
    match create_base_proposal (grid s) base_balance quote_balance with
    | Raise e => (s, Raise e)
    | Ok (proposal, self) =>
        let s := set_grid self s in
        match apply_order_levels_modifiers (grid s) proposal with
        | Raise e => (s, Raise e)
        | Ok proposal => (s, Ok (Some proposal))
        end
    end
  else (s, Ok None).

Section Tick.

Variable order_age : LimitOrder -> float.

(** [tick], lines 216-222: the hanging orders tracker runs, stale orders
    are cancelled, and the proposal is executed if [to_create_orders]
    agrees. *)
Definition monitor_and_create (s : Strategy) (around : Surroundings)
  (proposal : option Proposal) : Strategy * list action :=
  let s := look (after_process_tick around) s in
  let cancels := cancel_active_orders_on_max_age_limit order_age (grid s) in
  let '(trackers, ledger) := after_cancels around cancels in
  let s := look trackers s in
  let out := map strategy_effect cancels in
  if to_create_orders s ledger proposal
  then match proposal with
       | Some p =>
           let '(s, orders) := execute_orders_proposal s p in
           (s, out ++ orders)
       | None => (s, out)
       end
  else (s, out).

(** The body of the [try] of [tick]: the strategy object as the body
    leaves it, what it asked for, and the exception it raised, if any. *)
Definition tick_body (s : Strategy) (around : Surroundings)
  : Strategy * list action * option exn :=
  let s := latch_ready s around in
  if negb (_connector_ready s)
  then (s, [logger_warning_not_ready], None)
  else
    match propose s around with
    | (s, Raise e) => (s, [], Some e)
    | (s, Ok proposal) =>
        let '(s, out) := monitor_and_create s around proposal in
        (s, out, None)
    end.

(** [tick]: the body, then the [finally] clause. *)
Definition tick (s : Strategy) (timestamp : float) (around : Surroundings)
  : Strategy * list action * option exn :=
  let '(s, out, raised) := tick_body s around in
  (set_last_timestamp timestamp s, out, raised).

End Tick.

(** The value of the local [size] in the loop over sell levels. *)
Definition sell_size_of (self : GridOrder) (base_balance : float) : float :=
  round_2f
    (SFdiv prec emax (mul base_balance (_rebalance_percentage self)) hundred).

(** The two conditions of [create_base_proposal]. *)
Definition base_deficient (self : GridOrder) (base_balance quote_balance : float)
  : bool :=
  negb (is_nan (get_price_by_type (market (_market_info self)) BestBid))
  && ltb (base_percentage_of base_balance quote_balance)
         (sub (_base_percentage self) (_rebalance_percentage self)).

Definition base_excess (self : GridOrder) (base_balance quote_balance : float)
  : bool :=
  negb (is_nan (get_price_by_type (market (_market_info self)) BestAsk))
  && gtb (base_percentage_of base_balance quote_balance)
         (add (_base_percentage self) (_rebalance_percentage self)).

(** A decimal strictly above zero. *)
Definition positive_decimal (d : Decimal) : Prop :=
  match d with
  | Dinf false => True
  | Dfin false (Npos _) _ => True
  | _ => False
  end.

(** Requests that submit an order. *)
Definition submits (a : action) : bool :=
  match a with
  | buy_with_specific_market _ _ _ => true
  | sell_with_specific_market _ _ _ => true
  | _ => false
  end.

(** ** The arithmetic on known values *)

Example hundred_is_100 : hundred = S754_finite false 7036874417766400 (-46).
Proof. reflexivity. Qed.

(** [0.1 + 0.2] is [0.30000000000000004]. *)
Example add_tenth_fifth :
  add (S754_finite false 7205759403792794 (-56))
      (S754_finite false 7205759403792794 (-55))
  = S754_finite false 5404319552844596 (-54).
Proof. vm_compute. reflexivity. Qed.

(** ["{:.2f}"] rounds the exact binary value, ties to even: 0.125 gives
    0.12, 0.375 gives 0.38, 2.675 gives 2.67 and -0.001 gives -0.0. *)
Example round_2f_eighth :
  round_2f (S754_finite false 4503599627370496 (-55))
  = S754_finite false 8646911284551352 (-56).
Proof. vm_compute. reflexivity. Qed.

Example round_2f_three_eighths :
  round_2f (S754_finite false 6755399441055744 (-54))
  = S754_finite false 6845471433603154 (-54).
Proof. vm_compute. reflexivity. Qed.

Example round_2f_2675 :
  round_2f (S754_finite false 6023564501608038 (-51))
  = S754_finite false 6012305502539612 (-51).
Proof. vm_compute. reflexivity. Qed.

Example round_2f_small_negative :
  round_2f (S754_finite true 4611686018427388 (-62)) = S754_zero true.
Proof. vm_compute. reflexivity. Qed.

(** [float(Decimal("0.1"))], [float(Decimal("1E+400"))] and
    [Decimal(0.5)]. *)
Example to_float_tenth :
  to_float (Dfin false 1 (-1)) = S754_finite false 7205759403792794 (-56).
Proof. vm_compute. reflexivity. Qed.

Example to_float_overflow : to_float (Dfin false 1 400) = S754_infinity false.
Proof. vm_compute. reflexivity. Qed.

Example from_float_half :
  from_float (S754_finite false 4503599627370496 (-53)) = Dfin false 5 (-1).
Proof. vm_compute. reflexivity. Qed.

(** [Decimal("0.1") >= 0.1] is false: the float is a little above. *)
Example tenth_below_float_tenth :
  ge_float (Dfin false 1 (-1)) (S754_finite false 7205759403792794 (-56))
  = Ok false.
Proof. vm_compute. reflexivity. Qed.

Example nan_comparison_raises :
  ge_float Dnan hundred = Raise InvalidOperation.
Proof. reflexivity. Qed.

(** ** Float order facts *)

Ltac order_case :=
  cbv [ltb leb SFltb SFleb SFcompare lt3 le3 rank isnan CompOpp];
  repeat match goal with
    | |- context [Pos.compare_cont Eq ?a ?b] =>
        change (Pos.compare_cont Eq a b) with (Pos.compare a b);
        destruct (Pos.compare_spec a b)
    | |- context [Z.compare ?a ?b] => destruct (Z.compare_spec a b)
    end;
  (split;
   [ let Hc := fresh "Hc" in
     intros Hc; try discriminate Hc; repeat split; lia
   | let H1 := fresh "Hx" in
     let H2 := fresh "Hy" in
     let Hr := fresh "Hr" in
     intros (H1 & H2 & Hr);
     try discriminate H1; try discriminate H2; try reflexivity; lia ]).

Lemma ltb_rank (x y : float) :
  ltb x y = true <->
  isnan x = false /\ isnan y = false /\ lt3 (rank x) (rank y).
Proof.
  destruct x as [sx | sx | | sx mx ex], y as [sy | sy | | sy my ey];
    try destruct sx; try destruct sy; order_case.
Qed.

Lemma leb_rank (x y : float) :
  leb x y = true <->
  isnan x = false /\ isnan y = false /\ le3 (rank x) (rank y).
Proof.
  destruct x as [sx | sx | | sx mx ex], y as [sy | sy | | sy my ey];
    try destruct sx; try destruct sy; order_case.
Qed.

Ltac by_rank :=
  repeat match goal with
    | H : ltb _ _ = true |- _ => apply ltb_rank in H; destruct H as (? & ? & H)
    | H : leb _ _ = true |- _ => apply leb_rank in H; destruct H as (? & ? & H)
    end;
  repeat match goal with
    | |- context [rank ?x] =>
        let a := fresh "a" in
        let b := fresh "b" in
        let c := fresh "c" in
        destruct (rank x) as [[a b] c]
    | H : context [rank ?x] |- _ =>
        let a := fresh "a" in
        let b := fresh "b" in
        let c := fresh "c" in
        destruct (rank x) as [[a b] c]
    end;
  unfold lt3, le3 in *.

Lemma leb_not_nan (x y : float) :
  leb x y = true -> isnan x = false /\ isnan y = false.
Proof. intros H. apply leb_rank in H. tauto. Qed.

Lemma ltb_not_nan (x y : float) :
  ltb x y = true -> isnan x = false /\ isnan y = false.
Proof. intros H. apply ltb_rank in H. tauto. Qed.

Lemma ltb_irrefl (x : float) : ltb x x = false.
Proof.
  destruct (ltb x x) eqn:E; [ | reflexivity ].
  exfalso. by_rank. lia.
Qed.

Lemma leb_refl (x : float) : isnan x = false -> leb x x = true.
Proof.
  intros Hx. apply leb_rank. repeat split; trivial. by_rank. lia.
Qed.

Lemma ltb_leb (x y : float) : ltb x y = true -> leb x y = true.
Proof.
  intros H. apply leb_rank. by_rank. repeat split; trivial. lia.
Qed.

(** [x <= y] excludes [y < x]. *)
Lemma leb_ltb_false (x y : float) : leb x y = true -> ltb y x = false.
Proof.
  intros H. destruct (ltb y x) eqn:E; [ | reflexivity ].
  exfalso. by_rank. lia.
Qed.

(** Two floats that are not NaN are comparable. *)
Lemma leb_total (x y : float) :
  isnan x = false -> isnan y = false -> ltb y x = false -> leb x y = true.
Proof.
  intros Hx Hy H. apply leb_rank. repeat split; trivial.
  assert (N : ~ lt3 (rank y) (rank x)).
  { intros K. assert (ltb y x = true) by (apply ltb_rank; auto). congruence. }
  by_rank. lia.
Qed.

Lemma leb_trans (x y z : float) :
  leb x y = true -> leb y z = true -> leb x z = true.
Proof.
  intros H1 H2. apply leb_rank. by_rank. repeat split; trivial. lia.
Qed.

Lemma min_cases (a b : float) :
  (ltb b a = true /\ min a b = b) \/ (ltb b a = false /\ min a b = a).
Proof. unfold min. destruct (ltb b a); auto. Qed.

Lemma min_same (a : float) : min a a = a.
Proof. unfold min. rewrite ltb_irrefl. reflexivity. Qed.

(** [min(a, b) > b] never holds. *)
Lemma min_not_above (a b : float) : gtb (min a b) b = false.
Proof.
  unfold gtb. destruct (min_cases a b) as [[_ ->] | [E ->]].
  - apply ltb_irrefl.
  - exact E.
Qed.

Lemma min_not_above_l (a b : float) : gtb (min a b) a = false.
Proof.
  unfold gtb. destruct (min_cases a b) as [[L ->] | [_ ->]].
  - apply leb_ltb_false. now apply ltb_leb.
  - apply ltb_irrefl.
Qed.

(** [min(a, b) <= b] as soon as neither is NaN. *)
Lemma min_leb_r (a b : float) :
  isnan a = false -> isnan b = false -> leb (min a b) b = true.
Proof.
  intros Ha Hb. destruct (min_cases a b) as [[_ ->] | [E ->]].
  - now apply leb_refl.
  - now apply leb_total.
Qed.

(** ** get_price *)

Lemma get_price_unfold (self : GridOrder) :
  get_price self =
  if is_nan (selected_price self)
  then get_price_by_type (market (price_provider self)) MidPrice
  else selected_price self.
Proof. reflexivity. Qed.

(** C10.  Whatever the configured price type, when the price of the
    selected source is NaN, [get_price] returns the mid price of the pair
    instead, and otherwise the selected price itself; in particular the
    last own trade price, NaN until the first own fill, is replaced by the
    mid price.  Hence [get_price] returns NaN only when the mid price is
    NaN. *)
Theorem get_price_falls_back_to_mid (self : GridOrder) :
  let mid := get_price_by_type (market (price_provider self)) MidPrice in
  (is_nan (selected_price self) = true -> get_price self = mid)
  /\ (is_nan (selected_price self) = false ->
      get_price self = selected_price self)
  /\ (_price_type self = LastOwnTrade ->
      is_nan (_last_own_trade_price self) = true -> get_price self = mid)
  /\ (is_nan (get_price self) = true -> is_nan mid = true).
Proof.
  intros mid. rewrite get_price_unfold. fold mid.
  repeat split.
  - intros ->. reflexivity.
  - intros ->. reflexivity.
  - intros T N. unfold selected_price. rewrite T, N. reflexivity.
  - destruct (is_nan (selected_price self)) eqn:E; [ trivial | congruence ].
Qed.

Lemma get_price_falls_back_to_mid_witness :
  let self := new_strategy book_100 (dec 0) (dec 0) (dec 50) (dec 50) (dec 1)
                           LastOwnTrade zero in
  is_nan (selected_price self) = true
  /\ get_price self = Dfin false 1005 (-1).
Proof.
  intros self. split.
  - reflexivity.
  - apply (proj1 (get_price_falls_back_to_mid self)). reflexivity.
Defined.

(** ** Completion events *)

(** The timers after a completed fill at the clock reading of [self]. *)
Lemma fill_cooldown_order (cancel t delay : float) :
  isnan cancel = false -> isnan (add t delay) = false ->
  leb (min cancel (add t delay)) (add t delay) = true.
Proof. intros Hc Hn. now apply min_leb_r. Qed.

Lemma did_complete_buy_order_unknown (self : GridOrder)
  (ev : OrderCompletedEvent) :
  get_limit_order (_sb_order_tracker self) (order_id ev) = None ->
  did_complete_buy_order self ev = (self, []).
Proof. intros H. unfold did_complete_buy_order. rewrite H. reflexivity. Qed.

Lemma did_complete_sell_order_unknown (self : GridOrder)
  (ev : OrderCompletedEvent) :
  get_limit_order (_sb_order_tracker self) (order_id ev) = None ->
  did_complete_sell_order self ev = (self, []).
Proof. intros H. unfold did_complete_sell_order. rewrite H. reflexivity. Qed.

Lemma did_complete_buy_order_known (self : GridOrder)
  (ev : OrderCompletedEvent) (o : LimitOrder) :
  get_limit_order (_sb_order_tracker self) (order_id ev) = Some o ->
  did_complete_buy_order self ev =
  (set_last_own_trade_price (order_price o)
     (set_filled_buys_balance (_filled_buys_balance self + 1)
        (set_cancel_timestamp
           (min (_cancel_timestamp self)
                (add (current_timestamp self) (_filled_order_delay self)))
           (set_create_timestamp
              (add (current_timestamp self) (_filled_order_delay self))
              self))),
   [log_with_clock BUY (order_id ev) o; notify_hb_app_with_timestamp BUY o]).
Proof. intros H. unfold did_complete_buy_order. rewrite H. reflexivity. Qed.

Lemma did_complete_sell_order_known (self : GridOrder)
  (ev : OrderCompletedEvent) (o : LimitOrder) :
  get_limit_order (_sb_order_tracker self) (order_id ev) = Some o ->
  did_complete_sell_order self ev =
  (set_last_own_trade_price (order_price o)
     (set_filled_sells_balance (_filled_sells_balance self + 1)
        (set_cancel_timestamp
           (min (_cancel_timestamp self)
                (add (current_timestamp self) (_filled_order_delay self)))
           (set_create_timestamp
              (add (current_timestamp self) (_filled_order_delay self))
              self))),
   [log_with_clock SELL (order_id ev) o; notify_hb_app_with_timestamp SELL o]).
Proof. intros H. unfold did_complete_sell_order. rewrite H. reflexivity. Qed.

(** C7.  A buy or sell completion whose order id the tracker does not
    know returns normally, leaves the strategy object as it was (both
    timestamps, both fill counters, the last own trade price and every
    other attribute), and emits neither a log line nor a notification. *)
Theorem completion_of_unknown_order_is_ignored (self : GridOrder)
  (ev : OrderCompletedEvent) :
  get_limit_order (_sb_order_tracker self) (order_id ev) = None ->
  did_complete_buy_order self ev = (self, [])
  /\ did_complete_sell_order self ev = (self, []).
Proof.
  intros H. split.
  - now apply did_complete_buy_order_unknown.
  - now apply did_complete_sell_order_unknown.
Qed.

Lemma completion_of_unknown_order_is_ignored_witness :
  let self := set_sb_order_tracker tracker_7_8 (strategy_50_50 (of_Z 1000)) in
  let ev := mkCompleted "buy-6" in
  get_limit_order (_sb_order_tracker self) (order_id ev) = None
  /\ did_complete_buy_order self ev = (self, [])
  /\ did_complete_sell_order self ev = (self, []).
Proof.
  intros self ev. split.
  - reflexivity.
  - apply (completion_of_unknown_order_is_ignored self ev). reflexivity.
Defined.

(** C3.  When a buy (resp. sell) completion arrives at clock reading [t]
    for an order the tracker still holds, the handler sets the create
    timestamp to exactly [t + filled_order_delay], sets the cancel
    timestamp to the minimum of its previous value and the new create
    timestamp, adds exactly one to the count of filled buys (resp. sells)
    and leaves the other count alone, stores the price of the filled order
    as the last own trade price, and emits the log line and the
    notification.  Afterwards the cancel timestamp never exceeds the create
    timestamp, and [cancel <= create] holds, the timestamps being numbers
    (not NaN). *)
Theorem completion_of_tracked_order (self : GridOrder)
  (ev : OrderCompletedEvent) (o : LimitOrder) :
  get_limit_order (_sb_order_tracker self) (order_id ev) = Some o ->
  let t := current_timestamp self in
  let cooldown := _filled_order_delay self in
  let after_buy := fst (did_complete_buy_order self ev) in
  let after_sell := fst (did_complete_sell_order self ev) in
  (_create_timestamp after_buy = add t cooldown
   /\ _cancel_timestamp after_buy
      = min (_cancel_timestamp self) (_create_timestamp after_buy)
   /\ gtb (_cancel_timestamp after_buy) (_create_timestamp after_buy) = false
   /\ (isnan (_cancel_timestamp self) = false ->
       isnan (add t cooldown) = false ->
       leb (_cancel_timestamp after_buy) (_create_timestamp after_buy) = true)
   /\ _filled_buys_balance after_buy = _filled_buys_balance self + 1
   /\ _filled_sells_balance after_buy = _filled_sells_balance self
   /\ _last_own_trade_price after_buy = order_price o
   /\ snd (did_complete_buy_order self ev)
      = [log_with_clock BUY (order_id ev) o;
         notify_hb_app_with_timestamp BUY o])
  /\
  (_create_timestamp after_sell = add t cooldown
   /\ _cancel_timestamp after_sell
      = min (_cancel_timestamp self) (_create_timestamp after_sell)
   /\ gtb (_cancel_timestamp after_sell) (_create_timestamp after_sell) = false
   /\ (isnan (_cancel_timestamp self) = false ->
       isnan (add t cooldown) = false ->
       leb (_cancel_timestamp after_sell) (_create_timestamp after_sell) = true)
   /\ _filled_sells_balance after_sell = _filled_sells_balance self + 1
   /\ _filled_buys_balance after_sell = _filled_buys_balance self
   /\ _last_own_trade_price after_sell = order_price o
   /\ snd (did_complete_sell_order self ev)
      = [log_with_clock SELL (order_id ev) o;
         notify_hb_app_with_timestamp SELL o]).
Proof.
  intros H t cooldown after_buy after_sell.
  subst after_buy after_sell.
  rewrite (did_complete_buy_order_known self ev o H).
  rewrite (did_complete_sell_order_known self ev o H).
  cbn [fst snd set_last_own_trade_price set_filled_buys_balance
       set_filled_sells_balance set_cancel_timestamp set_create_timestamp
       _create_timestamp _cancel_timestamp _filled_buys_balance
       _filled_sells_balance _last_own_trade_price].
  fold t cooldown.
  repeat split; try reflexivity; try apply min_not_above;
    intros; now apply fill_cooldown_order.
Qed.

(** Scenario C of the specification: a buy order fills at 1000 with a
    cooldown of 60. *)
Lemma completion_of_tracked_order_witness :
  let self := set_sb_order_tracker tracker_7_8 (strategy_50_50 (of_Z 1000)) in
  let ev := mkCompleted "buy-7" in
  let after_buy := fst (did_complete_buy_order self ev) in
  get_limit_order (_sb_order_tracker self) (order_id ev) = Some buy_order_7
  /\ _create_timestamp after_buy = add (of_Z 1000) (of_Z 60)
  /\ leb (_cancel_timestamp after_buy) (_create_timestamp after_buy) = true.
Proof.
  intros self ev after_buy. split; [ reflexivity | ].
  destruct (completion_of_tracked_order self ev buy_order_7 eq_refl)
    as [(Hc & _ & _ & Hle & _) _].
  split; [ exact Hc | apply Hle; reflexivity ].
Defined.

Example scenario_C_create_timestamp :
  _create_timestamp
    (fst (did_complete_buy_order
            (set_sb_order_tracker tracker_7_8 (strategy_50_50 (of_Z 1000)))
            (mkCompleted "buy-7")))
  = of_Z 1060.
Proof. vm_compute. reflexivity. Qed.

(** ** set_timers *)

Lemma set_timers_create (self : GridOrder) :
  _create_timestamp (set_timers self) =
  if leb (_create_timestamp self) (current_timestamp self)
  then add (current_timestamp self) (_order_refresh_time self)
  else _create_timestamp self.
Proof.
  unfold set_timers.
  destruct (leb (_create_timestamp self) (current_timestamp self));
    cbn [_cancel_timestamp set_create_timestamp current_timestamp];
    match goal with
    | |- context [if ?c then _ else _] => destruct c
    end; reflexivity.
Qed.

Lemma set_timers_cancel (self : GridOrder) :
  _cancel_timestamp (set_timers self) =
  if leb (_cancel_timestamp self) (current_timestamp self)
  then min (_create_timestamp (set_timers self))
           (add (current_timestamp self) (_order_refresh_time self))
  else _cancel_timestamp self.
Proof.
  rewrite set_timers_create. unfold set_timers.
  destruct (leb (_create_timestamp self) (current_timestamp self));
    cbn [_cancel_timestamp set_create_timestamp current_timestamp];
    destruct (leb (_cancel_timestamp self) (current_timestamp self));
    reflexivity.
Qed.

(** Arming the timers keeps the cancel deadline at or before the create
    deadline. *)
Lemma set_timers_keeps_order (self : GridOrder) :
  leb (_cancel_timestamp self) (_create_timestamp self) = true ->
  isnan (add (current_timestamp self) (_order_refresh_time self)) = false ->
  leb (_cancel_timestamp (set_timers self)) (_create_timestamp (set_timers self))
  = true.
Proof.
  intros Hord Hnext.
  rewrite set_timers_cancel, set_timers_create.
  destruct (leb (_create_timestamp self) (current_timestamp self)) eqn:Ec.
  - rewrite (leb_trans _ _ _ Hord Ec), min_same. now apply leb_refl.
  - destruct (leb (_cancel_timestamp self) (current_timestamp self)); trivial.
    destruct (leb_not_nan _ _ Hord) as [_ Hcr].
    destruct (min_cases (_create_timestamp self)
                (add (current_timestamp self) (_order_refresh_time self)))
      as [[L ->] | [_ ->]].
    + now apply ltb_leb.
    + now apply leb_refl.
Qed.

(** Arming the timers never lets the cancel deadline pass the create
    deadline, NaN or not. *)
Lemma set_timers_never_inverts (self : GridOrder) :
  gtb (_cancel_timestamp self) (_create_timestamp self) = false ->
  gtb (_cancel_timestamp (set_timers self)) (_create_timestamp (set_timers self))
  = false.
Proof.
  intros Hpre.
  rewrite set_timers_cancel, set_timers_create.
  set (t := current_timestamp self) in *.
  set (next_cycle := add t (_order_refresh_time self)).
  set (create := _create_timestamp self) in *.
  set (cancel := _cancel_timestamp self) in *.
  destruct (leb create t) eqn:Ec; destruct (leb cancel t) eqn:Ek.
  - apply min_not_above.
  - unfold gtb in *. destruct (ltb next_cycle cancel) eqn:L; [ | reflexivity ].
    destruct (ltb_not_nan _ _ L) as [_ Hk].
    destruct (leb_not_nan _ _ Ec) as [Hc _].
    pose proof (leb_total cancel create Hk Hc Hpre) as Hord.
    rewrite (leb_trans _ _ _ Hord Ec) in Ek. discriminate.
  - apply min_not_above_l.
  - exact Hpre.
Qed.

(** C4, as the code has it.  Called at clock reading [t], [set_timers]
    sets the create timestamp to [t + order_refresh_time] when the prior
    create timestamp is at most [t], and leaves it unchanged otherwise; the
    result is never below [t + order_refresh_time] when the prior create
    timestamp was at most [t] or already at least [t + order_refresh_time].
    The cancel timestamp is set to the minimum of the new create timestamp
    and [t + order_refresh_time] only when the prior cancel timestamp is at
    most [t]; otherwise it is left unchanged.  If the cancel timestamp did
    not exceed the create timestamp before the call, it does not
    afterwards. *)
Theorem set_timers_spec (self : GridOrder) :
  let t := current_timestamp self in
  let next_cycle := add t (_order_refresh_time self) in
  let create := _create_timestamp self in
  let cancel := _cancel_timestamp self in
  let create' := _create_timestamp (set_timers self) in
  let cancel' := _cancel_timestamp (set_timers self) in
  (leb create t = true -> create' = next_cycle)
  /\ (leb create t = false -> create' = create)
  /\ (leb create t = true \/ leb next_cycle create = true ->
      ltb create' next_cycle = false)
  /\ (leb cancel t = true -> cancel' = min create' next_cycle)
  /\ (leb cancel t = false -> cancel' = cancel)
  /\ (gtb cancel create = false -> gtb cancel' create' = false)
  /\ (leb cancel create = true -> isnan next_cycle = false ->
      leb cancel' create' = true).
Proof.
  intros t next_cycle create cancel create' cancel'.
  subst create' cancel'.
  repeat split.
  - intros H. rewrite set_timers_create. fold t create. now rewrite H.
  - intros H. rewrite set_timers_create. fold t create. now rewrite H.
  - intros H. rewrite set_timers_create. fold t create next_cycle.
    destruct (leb create t) eqn:E.
    + apply ltb_irrefl.
    + destruct H as [H | H]; [ discriminate H | now apply leb_ltb_false ].
  - intros H. rewrite set_timers_cancel. fold t cancel. now rewrite H.
  - intros H. rewrite set_timers_cancel. fold t cancel. now rewrite H.
  - apply set_timers_never_inverts.
  - intros Hord Hnext. now apply set_timers_keeps_order.
Qed.

(** The timers of a fresh strategy armed at 10 with a refresh period of
    30: both deadlines move to 40. *)
Lemma set_timers_spec_witness :
  let self := strategy_50_50 (of_Z 10) in
  leb (_create_timestamp self) (current_timestamp self) = true
  /\ leb (_cancel_timestamp self) (current_timestamp self) = true
  /\ _create_timestamp (set_timers self) = add (of_Z 10) (of_Z 30)
  /\ _cancel_timestamp (set_timers self)
     = min (_create_timestamp (set_timers self)) (add (of_Z 10) (of_Z 30))
  /\ leb (_cancel_timestamp (set_timers self))
         (_create_timestamp (set_timers self)) = true.
Proof.
  intros self.
  destruct (set_timers_spec self) as (Hc & _ & _ & Hm & _ & _ & Hord).
  split; [ reflexivity | ]. split; [ reflexivity | ].
  split; [ apply Hc; reflexivity | ].
  split; [ apply Hm; reflexivity | apply Hord; reflexivity ].
Defined.

Example strategy_armed_ahead_timers :
  _create_timestamp strategy_armed_ahead = of_Z 80
  /\ _cancel_timestamp strategy_armed_ahead = of_Z 40
  /\ current_timestamp strategy_armed_ahead = of_Z 30
  /\ _order_refresh_time strategy_armed_ahead = of_Z 30.
Proof. vm_compute. repeat split. Qed.

(** With the create deadline at 80 and the cancel deadline at 40,
    [set_timers] at 30 with a refresh period of 30 leaves the cancel
    deadline at 40; the minimum of the create deadline and
    [t + order_refresh_time] is 60. *)
Lemma set_timers_leaves_pending_cancel_deadline :
  let self := strategy_armed_ahead in
  let next_cycle := add (current_timestamp self) (_order_refresh_time self) in
  _cancel_timestamp (set_timers self) = of_Z 40
  /\ min (_create_timestamp (set_timers self)) next_cycle = of_Z 60
  /\ _cancel_timestamp (set_timers self)
     <> min (_create_timestamp (set_timers self)) next_cycle.
Proof.
  vm_compute. repeat split; discriminate.
Qed.

(** From timers that are not ordered, the cancel deadline can stay behind
    the create deadline: create 0 and cancel 1000 at time 10 give create 40
    and cancel 1000. *)
Example set_timers_needs_ordered_timers :
  let self := set_cancel_timestamp (of_Z 1000) (strategy_50_50 (of_Z 10)) in
  _create_timestamp (set_timers self) = of_Z 40
  /\ _cancel_timestamp (set_timers self) = of_Z 1000
  /\ leb (_cancel_timestamp (set_timers self))
         (_create_timestamp (set_timers self)) = false.
Proof. vm_compute. repeat split. Qed.

(** ** apply_price_band *)

Lemma from_float_is_nan (f : float) : is_nan (from_float f) = isnan f.
Proof.
  destruct f as [s | s | | s m [ | p | p]]; try reflexivity.
  simpl. destruct (lowest_terms m (Z.pos p)). reflexivity.
Qed.

Lemma positive_bound_not_nan (f : float) :
  gtb f zero = true -> is_nan (from_float f) = false.
Proof.
  intros H. rewrite from_float_is_nan.
  unfold gtb in H. now destruct (ltb_not_nan _ _ H).
Qed.

Lemma zero_bound_not_positive (f : float) :
  is_zero f = true -> gtb f zero = false.
Proof. destruct f; try discriminate. reflexivity. Qed.

Lemma ge_float_defined (d : Decimal) (f : float) (b : bool) :
  ge_float d f = Ok b -> is_nan d = false.
Proof.
  unfold ge_float. destruct (is_nan d); [ discriminate | reflexivity ].
Qed.

Lemma le_float_defined (d : Decimal) (f : float) (b : bool) :
  le_float d f = Ok b -> is_nan d = false.
Proof.
  unfold le_float. destruct (is_nan d); [ discriminate | reflexivity ].
Qed.

Lemma ge_float_total (d : Decimal) (f : float) :
  is_nan d = false -> is_nan (from_float f) = false ->
  exists b, ge_float d f = Ok b.
Proof. intros Hd Hf. unfold ge_float. rewrite Hd, Hf. eexists. reflexivity. Qed.

Lemma le_float_total (d : Decimal) (f : float) :
  is_nan d = false -> is_nan (from_float f) = false ->
  exists b, le_float d f = Ok b.
Proof. intros Hd Hf. unfold le_float. rewrite Hd, Hf. eexists. reflexivity. Qed.

Lemma clear_empty (p : Proposal) : clear p = mkProposal [] [].
Proof. reflexivity. Qed.

Lemma ceiling_check_disabled (self : GridOrder) (p : Proposal) :
  is_zero (price_ceiling self) = true -> ceiling_check self p = Ok p.
Proof.
  intros H. unfold ceiling_check.
  now rewrite (zero_bound_not_positive _ H).
Qed.

Lemma floor_check_disabled (self : GridOrder) (p : Proposal) :
  is_zero (price_floor self) = true -> floor_check self p = Ok p.
Proof.
  intros H. unfold floor_check.
  now rewrite (zero_bound_not_positive _ H).
Qed.

Lemma ceiling_breach_clears (self : GridOrder) (p : Proposal) :
  gtb (price_ceiling self) zero = true ->
  ge_float (get_price self) (price_ceiling self) = Ok true ->
  apply_price_band self p = Ok (mkProposal [] []).
Proof.
  intros Hpos Hge. unfold apply_price_band, ceiling_check.
  rewrite Hpos, Hge. cbn [bind]. rewrite clear_empty.
  unfold floor_check. destruct (gtb (price_floor self) zero) eqn:Hfl.
  - destruct (le_float_total (get_price self) (price_floor self))
      as [b Hb].
    + exact (ge_float_defined _ _ _ Hge).
    + now apply positive_bound_not_nan.
    + rewrite Hb. now destruct b.
  - reflexivity.
Qed.

Lemma floor_breach_clears (self : GridOrder) (p : Proposal) :
  gtb (price_floor self) zero = true ->
  le_float (get_price self) (price_floor self) = Ok true ->
  apply_price_band self p = Ok (mkProposal [] []).
Proof.
  intros Hpos Hle. unfold apply_price_band, ceiling_check.
  assert (Hfloor : forall q, floor_check self q = Ok (mkProposal [] [])).
  { intros q. unfold floor_check. now rewrite Hpos, Hle. }
  destruct (gtb (price_ceiling self) zero) eqn:Hc.
  - destruct (ge_float_total (get_price self) (price_ceiling self))
      as [b Hb].
    + exact (le_float_defined _ _ _ Hle).
    + now apply positive_bound_not_nan.
    + rewrite Hb. cbn [bind]. apply Hfloor.
  - cbn [bind]. apply Hfloor.
Qed.

(** C5.  For every proposal and every reference price [get_price]
    returns: with a positive price ceiling that the price reaches or
    exceeds, [apply_price_band] returns a proposal whose buys and sells are
    both empty; with a positive price floor that the price reaches or falls
    below, likewise; and a bound equal to 0 makes its check return the
    proposal it was given, so with both bounds 0 the proposal is
    unchanged. *)
Theorem apply_price_band_clears (self : GridOrder) (p : Proposal) :
  (gtb (price_ceiling self) zero = true ->
   ge_float (get_price self) (price_ceiling self) = Ok true ->
   apply_price_band self p = Ok (mkProposal [] []))
  /\ (gtb (price_floor self) zero = true ->
      le_float (get_price self) (price_floor self) = Ok true ->
      apply_price_band self p = Ok (mkProposal [] []))
  /\ (is_zero (price_ceiling self) = true -> ceiling_check self p = Ok p)
  /\ (is_zero (price_floor self) = true -> floor_check self p = Ok p)
  /\ (is_zero (price_ceiling self) = true ->
      is_zero (price_floor self) = true -> apply_price_band self p = Ok p).
Proof.
  repeat split.
  - apply ceiling_breach_clears.
  - apply floor_breach_clears.
  - apply ceiling_check_disabled.
  - apply floor_check_disabled.
  - intros Hc Hf. unfold apply_price_band.
    rewrite (ceiling_check_disabled _ _ Hc). cbn [bind].
    now apply floor_check_disabled.
Qed.

(** Scenario B of the specification: the price equals the ceiling, 100;
    the same price against a floor of 100; and no band at all. *)
Lemma apply_price_band_clears_witness :
  let p := mkProposal [mkPriceSize (dec 100) (dec 1)] [] in
  let at_ceiling := strategy_banded zero in
  let at_floor :=
    new_strategy book_100 (dec 0) (dec 100) (dec 50) (dec 50) (dec 1)
                 BestBid zero in
  let unbounded := strategy_50_50 zero in
  apply_price_band at_ceiling p = Ok (mkProposal [] [])
  /\ apply_price_band at_floor p = Ok (mkProposal [] [])
  /\ apply_price_band unbounded p = Ok p.
Proof.
  intros p at_ceiling at_floor unbounded.
  split; [ | split ].
  - apply (proj1 (apply_price_band_clears at_ceiling p)); reflexivity.
  - apply (proj1 (proj2 (apply_price_band_clears at_floor p))); reflexivity.
  - apply (proj2 (proj2 (proj2 (proj2 (apply_price_band_clears unbounded p)))));
      reflexivity.
Defined.

(** C9.  For a fixed reference price, running [apply_price_band] on its
    own result gives that result again: the proposal after two passes is
    the proposal after one, and a pass that raises keeps raising. *)
Theorem apply_price_band_idempotent (self : GridOrder) (p : Proposal) :
  (p' <- apply_price_band self p ;; apply_price_band self p')
  = apply_price_band self p.
Proof.
  unfold apply_price_band, ceiling_check, floor_check.
  destruct (gtb (price_ceiling self) zero);
    destruct (gtb (price_floor self) zero);
    try destruct (ge_float (get_price self) (price_ceiling self)) as [[ | ] | ];
    try destruct (le_float (get_price self) (price_floor self)) as [[ | ] | ];
    reflexivity.
Qed.

(** ** cancel_active_orders_on_max_age_limit *)

Section MaxAgeFacts.

Variable order_age : LimitOrder -> float.

Lemma active_non_hanging_orders_spec (self : GridOrder) (o : LimitOrder) :
  In o (active_non_hanging_orders self) <->
  In o (active_orders self)
  /\ is_order_id_in_hanging_orders (_hanging_orders_tracker self)
       (client_order_id o) = false.
Proof.
  unfold active_non_hanging_orders. rewrite filter_In.
  now rewrite negb_true_iff.
Qed.

Lemma no_stale_order_no_cancel (self : GridOrder) :
  (forall o, In o (active_non_hanging_orders self) ->
             leb (order_age o) (_max_order_age self) = true) ->
  cancel_active_orders_on_max_age_limit order_age self = [].
Proof.
  intros Hfresh. unfold cancel_active_orders_on_max_age_limit.
  destruct (existsb _ (active_non_hanging_orders self)) eqn:E.
  - apply existsb_exists in E. destruct E as (o & Hin & Hold).
    unfold gtb in Hold.
    rewrite (leb_ltb_false _ _ (Hfresh o Hin)) in Hold. discriminate.
  - now rewrite andb_false_r.
Qed.

Lemma stale_order_cancels_all (self : GridOrder) (o : LimitOrder) :
  In o (active_non_hanging_orders self) ->
  gtb (order_age o) (_max_order_age self) = true ->
  cancel_active_orders_on_max_age_limit order_age self
  = map (fun order => cancel_order (client_order_id order))
        (active_non_hanging_orders self).
Proof.
  intros Hin Hold. unfold cancel_active_orders_on_max_age_limit.
  assert (E : existsb (fun o => gtb (order_age o) (_max_order_age self))
                      (active_non_hanging_orders self) = true).
  { apply existsb_exists. now exists o. }
  rewrite E.
  destruct (active_non_hanging_orders self); [ contradiction | reflexivity ].
Qed.

(** C6.  Over the active orders that are not hanging: when the age of
    each is at most [max_order_age], no cancellation is issued; when the
    age of at least one is strictly greater than [max_order_age], one
    cancellation is issued for every active non-hanging order, in order,
    stale or not. *)
Theorem cancel_on_max_age_limit_all_or_nothing (self : GridOrder) :
  ((forall o, In o (active_non_hanging_orders self) ->
              leb (order_age o) (_max_order_age self) = true) ->
   cancel_active_orders_on_max_age_limit order_age self = [])
  /\ ((exists o, In o (active_non_hanging_orders self)
                 /\ gtb (order_age o) (_max_order_age self) = true) ->
      cancel_active_orders_on_max_age_limit order_age self
      = map (fun order => cancel_order (client_order_id order))
            (active_non_hanging_orders self)
      /\ forall order, In order (active_orders self) ->
           is_order_id_in_hanging_orders (_hanging_orders_tracker self)
             (client_order_id order) = false ->
           In (cancel_order (client_order_id order))
              (cancel_active_orders_on_max_age_limit order_age self)).
Proof.
  split.
  - apply no_stale_order_no_cancel.
  - intros (o & Hin & Hold).
    rewrite (stale_order_cancels_all self o Hin Hold). split; [ reflexivity | ].
    intros order Hact Hnh.
    apply (in_map (fun order => cancel_order (client_order_id order))).
    apply active_non_hanging_orders_spec. now split.
Qed.

End MaxAgeFacts.

(** The buy order is 31 seconds old and the sell order 5, against a
    maximal age of 30: both are cancelled.  With every order 5 seconds
    old nothing is. *)
Lemma cancel_on_max_age_limit_all_or_nothing_witness :
  let self := set_sb_order_tracker tracker_7_8 (strategy_50_50 (of_Z 1000)) in
  let one_stale := fun o => if is_buy o then of_Z 31 else of_Z 5 in
  let all_fresh := fun _ : LimitOrder => of_Z 5 in
  cancel_active_orders_on_max_age_limit all_fresh self = []
  /\ cancel_active_orders_on_max_age_limit one_stale self
     = [cancel_order "buy-7"; cancel_order "sell-8"].
Proof.
  intros self one_stale all_fresh. split.
  - apply (proj1 (cancel_on_max_age_limit_all_or_nothing all_fresh self)).
    intros o _. reflexivity.
  - destruct (proj2 (cancel_on_max_age_limit_all_or_nothing one_stale self))
      as [Hall _].
    + exists buy_order_7. split; [ left; reflexivity | reflexivity ].
    + rewrite Hall. reflexivity.
Defined.

(** ** create_base_proposal *)

Lemma truediv_ok (x y : float) :
  is_zero y = false -> truediv x y = Ok (SFdiv prec emax x y).
Proof. intros H. unfold truediv. now rewrite H. Qed.

Lemma truediv_zero (x y : float) :
  is_zero y = true -> truediv x y = Raise ZeroDivisionError.
Proof. intros H. unfold truediv. now rewrite H. Qed.

Lemma positive_not_zero (x : float) : gtb x zero = true -> is_zero x = false.
Proof. destruct x; try reflexivity. discriminate. Qed.

(** With a total of zero the percentage cannot be computed. *)
Lemma create_base_proposal_zero_total (self : GridOrder)
  (base_balance quote_balance : float) :
  is_zero (add base_balance quote_balance) = true ->
  create_base_proposal self base_balance quote_balance
  = Raise ZeroDivisionError.
Proof.
  intros H. unfold create_base_proposal.
  now rewrite (truediv_zero _ _ H).
Qed.

(** The three branches, once the percentage is known. *)
Lemma create_base_proposal_branches (self : GridOrder)
  (base_balance quote_balance : float) :
  is_zero (add base_balance quote_balance) = false ->
  let bid := get_price_by_type (market (_market_info self)) BestBid in
  let ask := get_price_by_type (market (_market_info self)) BestAsk in
  let pct := base_percentage_of base_balance quote_balance in
  create_base_proposal self base_balance quote_balance =
  if negb (is_nan bid)
     && ltb pct (sub (_base_percentage self) (_rebalance_percentage self))
  then
    vars <- buy_level quote_balance 0%nat (NumDecimal bid, [], self) ;;
    let '(_, buys, self) := vars in
    Ok (mkProposal buys [], self)
  else if negb (is_nan ask)
          && gtb pct (add (_base_percentage self) (_rebalance_percentage self))
  then
    vars <- sell_level base_balance ask 0%nat ([], self) ;;
    let '(sells, self) := vars in
    Ok (mkProposal [] sells, self)
  else Ok (mkProposal [] [], self).
Proof.
  intros H bid ask pct. unfold create_base_proposal.
  rewrite (truediv_ok _ _ H). cbn [bind]. fold bid ask.
  change (SFdiv prec emax (mul hundred base_balance)
            (add base_balance quote_balance)) with pct.
  destruct (negb (is_nan bid) && ltb pct _).
  - cbn [range _buy_levels Nat.sub seq for_each].
    destruct (buy_level quote_balance 0%nat (NumDecimal bid, [], self))
      as [[[brp buys] self'] | e]; reflexivity.
  - destruct (negb (is_nan ask) && gtb pct _); [ | reflexivity ].
    cbn [range _sell_levels Nat.sub seq for_each].
    destruct (sell_level base_balance ask 0%nat ([], self))
      as [[sells self'] | e]; reflexivity.
Qed.

Lemma buy_level_first (self : GridOrder) (quote_balance : float)
  (bid : Decimal) :
  let sz := buy_size_of self quote_balance bid in
  buy_level quote_balance 0%nat (NumDecimal bid, [], self) =
  if is_zero (to_float bid) then Raise ZeroDivisionError
  else if gtb sz zero
       then Ok (NumFloat (to_float bid),
                [mkPriceSize bid (from_float sz)],
                set_order_amount sz self)
       else Ok (NumFloat (to_float bid), [], self).
Proof.
  intros sz. unfold buy_level. cbn [float_of Decimal_of].
  rewrite (truediv_ok _ hundred) by reflexivity. cbn [bind].
  unfold truediv. destruct (is_zero (to_float bid)); [ reflexivity | ].
  cbn [bind]. fold (buy_size_of self quote_balance bid). fold sz.
  destruct (gtb sz zero); reflexivity.
Qed.

Lemma create_base_proposal_buy_branch (self : GridOrder)
  (base_balance quote_balance : float) :
  let bid := get_price_by_type (market (_market_info self)) BestBid in
  let sz := buy_size_of self quote_balance bid in
  gtb (add base_balance quote_balance) zero = true ->
  ltb (base_percentage_of base_balance quote_balance)
      (sub (_base_percentage self) (_rebalance_percentage self)) = true ->
  is_nan bid = false ->
  create_base_proposal self base_balance quote_balance =
  if is_zero (to_float bid) then Raise ZeroDivisionError
  else if gtb sz zero
       then Ok (mkProposal [mkPriceSize bid (from_float sz)] [],
                set_order_amount sz self)
       else Ok (mkProposal [] [], self).
Proof.
  intros bid sz Htot Hlow Hbid.
  rewrite create_base_proposal_branches by now apply positive_not_zero.
  fold bid. rewrite Hbid, Hlow. cbn [negb andb].
  rewrite buy_level_first. fold sz.
  destruct (is_zero (to_float bid)); [ reflexivity | ].
  destruct (gtb sz zero); reflexivity.
Qed.

(** C1, as the code has it.  For every pair of balances whose sum is
    zero, [create_base_proposal] raises ZeroDivisionError: the percentage
    is computed by an unguarded division and no proposal is returned. *)
Theorem create_base_proposal_raises_on_zero_total (self : GridOrder)
  (base_balance quote_balance : float) :
  is_zero (add base_balance quote_balance) = true ->
  create_base_proposal self base_balance quote_balance
  = Raise ZeroDivisionError.
Proof. apply create_base_proposal_zero_total. Qed.

(** An account holding nothing: both balances are 0.0. *)
Lemma create_base_proposal_raises_on_zero_total_witness :
  is_zero (add zero zero) = true
  /\ create_base_proposal (strategy_50_50 zero) zero zero
     = Raise ZeroDivisionError.
Proof.
  split; [ reflexivity | ].
  apply (create_base_proposal_raises_on_zero_total (strategy_50_50 zero)).
  reflexivity.
Defined.

(** C2.  For balances with a positive total, a current base percentage
    below target minus tolerance and a best bid that is not NaN:
    [create_base_proposal] returns a proposal as soon as the best bid is
    not zero as a float, and in the proposal it returns the sells are
    empty, every buy leg has the best bid as its price and, as its size,
    [quote_balance * rebalance_percentage / 100.0 / best bid] rounded to two
    decimal places; there is no leg when that size is at most 0 and exactly
    one when it is positive. *)
Theorem create_base_proposal_buy_side (self : GridOrder)
  (base_balance quote_balance : float) :
  let bid := get_price_by_type (market (_market_info self)) BestBid in
  let sz := buy_size_of self quote_balance bid in
  gtb (add base_balance quote_balance) zero = true ->
  ltb (base_percentage_of base_balance quote_balance)
      (sub (_base_percentage self) (_rebalance_percentage self)) = true ->
  is_nan bid = false ->
  (is_zero (to_float bid) = false ->
   exists p self',
     create_base_proposal self base_balance quote_balance = Ok (p, self'))
  /\ (forall p self',
        create_base_proposal self base_balance quote_balance = Ok (p, self') ->
        sells p = []
        /\ (forall leg, In leg (buys p) ->
                        price leg = bid /\ size leg = from_float sz)
        /\ (leb sz zero = true -> buys p = [])
        /\ (gtb sz zero = true -> buys p = [mkPriceSize bid (from_float sz)])).
Proof.
  intros bid sz Htot Hlow Hbid.
  pose proof (create_base_proposal_buy_branch self base_balance quote_balance
                Htot Hlow Hbid) as E.
  fold bid sz in E. cbv zeta in E. rewrite E. clear E. split.
  - intros ->. destruct (gtb sz zero); eexists; eexists; reflexivity.
  - intros p self'. destruct (is_zero (to_float bid)); [ discriminate | ].
    destruct (gtb sz zero) eqn:Hs; intros [= <- _]; cbn [buys sells].
    + split; [ reflexivity | ]. split; [ | split ].
      * intros leg [<- | []]. split; reflexivity.
      * intros Hle. unfold gtb in Hs.
        rewrite (leb_ltb_false _ _ Hle) in Hs. discriminate.
      * reflexivity.
    + split; [ reflexivity | ]. split; [ | split ].
      * intros leg [].
      * reflexivity.
      * discriminate.
Qed.

(** Scenario A of the specification: no base, 1000 of quote, target
    50/50, tolerance 1, best bid 100.  One buy leg at 100 of size 0.1. *)
Lemma create_base_proposal_buy_side_witness :
  let self := strategy_50_50 zero in
  let tenth := S754_finite false 7205759403792794 (-56) in
  exists self',
    create_base_proposal self zero (of_Z 1000)
    = Ok (mkProposal [mkPriceSize (dec 100) (from_float tenth)] [], self').
Proof.
  intros self tenth.
  destruct (create_base_proposal_buy_side self zero (of_Z 1000))
    as [Hret Hprop]; try reflexivity.
  destruct Hret as (p & self' & E); [ reflexivity | ].
  exists self'. rewrite E.
  destruct (Hprop p self' E) as (Hs & _ & _ & Hb).
  destruct p as [bs ss]. cbn [buys sells] in Hs, Hb.
  rewrite Hs, Hb by reflexivity. reflexivity.
Defined.

Example scenario_A_size :
  from_float (buy_size_of (strategy_50_50 zero) (of_Z 1000) (dec 100))
  = Dfin false 1000000000000000055511151231257827021181583404541015625 (-55).
Proof. vm_compute. reflexivity. Qed.

(** A best bid of zero is not NaN, and the size cannot be computed. *)
Example create_base_proposal_zero_bid :
  create_base_proposal
    (new_strategy (mkPriceProvider (order_book (dec 0) (dec 101) (dec 50)))
                  (dec 0) (dec 0) (dec 50) (dec 50) (dec 1) MidPrice zero)
    zero (of_Z 1000)
  = Raise ZeroDivisionError.
Proof. vm_compute. reflexivity. Qed.

(** C8.  For balances with a positive total and a current base
    percentage within [target - tolerance, target + tolerance],
    [create_base_proposal] returns a proposal with no buys and no sells,
    and leaves the strategy as it was; and when the best bid and the best
    ask are both NaN, any proposal it returns is that empty one, whatever
    the percentage, and it does return it when the total is not zero. *)
Theorem create_base_proposal_balanced (self : GridOrder)
  (base_balance quote_balance : float) :
  let bid := get_price_by_type (market (_market_info self)) BestBid in
  let ask := get_price_by_type (market (_market_info self)) BestAsk in
  let pct := base_percentage_of base_balance quote_balance in
  let target := _base_percentage self in
  let tol := _rebalance_percentage self in
  (gtb (add base_balance quote_balance) zero = true ->
   leb (sub target tol) pct = true ->
   leb pct (add target tol) = true ->
   create_base_proposal self base_balance quote_balance
   = Ok (mkProposal [] [], self))
  /\ (is_nan bid = true -> is_nan ask = true ->
      (is_zero (add base_balance quote_balance) = false ->
       create_base_proposal self base_balance quote_balance
       = Ok (mkProposal [] [], self))
      /\ (forall p self',
            create_base_proposal self base_balance quote_balance
            = Ok (p, self') ->
            p = mkProposal [] [])).
Proof.
  intros bid ask pct target tol. split.
  - intros Htot Hlo Hhi.
    rewrite create_base_proposal_branches by now apply positive_not_zero.
    fold bid ask pct target tol. unfold gtb.
    rewrite (leb_ltb_false _ _ Hlo), (leb_ltb_false _ _ Hhi).
    now rewrite !andb_false_r.
  - intros Hbid Hask.
    assert (Hret : is_zero (add base_balance quote_balance) = false ->
                   create_base_proposal self base_balance quote_balance
                   = Ok (mkProposal [] [], self)).
    { intros Htot. rewrite create_base_proposal_branches by assumption.
      fold bid ask. now rewrite Hbid, Hask. }
    split; [ exact Hret | ].
    intros p self'.
    destruct (is_zero (add base_balance quote_balance)) eqn:Htot.
    + rewrite (create_base_proposal_zero_total _ _ _ Htot). discriminate.
    + rewrite (Hret eq_refl). now intros [= <- _].
Qed.

(** Balances 500/500 against a target of 50 with tolerance 1, and an
    empty order book. *)
Lemma create_base_proposal_balanced_witness :
  let balanced := strategy_50_50 zero in
  let no_book :=
    new_strategy empty_book (dec 0) (dec 0) (dec 50) (dec 50) (dec 1)
                 MidPrice zero in
  create_base_proposal balanced (of_Z 500) (of_Z 500)
  = Ok (mkProposal [] [], balanced)
  /\ create_base_proposal no_book zero (of_Z 1000)
     = Ok (mkProposal [] [], no_book).
Proof.
  intros balanced no_book. split.
  - apply (proj1 (create_base_proposal_balanced balanced (of_Z 500) (of_Z 500)));
      reflexivity.
  - apply (proj2 (create_base_proposal_balanced no_book zero (of_Z 1000)));
      reflexivity.
Defined.

(** ** The timers stay ordered *)

Lemma iter_pos_invariant {A : Type} (P : A -> Prop) (f : A -> A) :
  (forall x, P x -> P (f x)) ->
  forall (n : positive) (x : A), P x -> P (iter_pos f n x).
Proof.
  intros Hf. induction n as [n IH | n IH | ]; intros x Hx; simpl; auto.
Qed.

Lemma shr_1_nonneg (mrs : shr_record) :
  0 <= shr_m mrs -> 0 <= shr_m (shr_1 mrs).
Proof.
  destruct mrs as [m r s]. destruct m as [ | [p | p | ] | p]; simpl; lia.
Qed.

Lemma shr_nonneg (mrs : shr_record) (e n : Z) :
  0 <= shr_m mrs -> 0 <= shr_m (fst (shr mrs e n)).
Proof.
  intros H. destruct n; simpl; trivial.
  apply (iter_pos_invariant (fun r => 0 <= shr_m r)); trivial.
  exact shr_1_nonneg.
Qed.

Lemma shr_fexp_nonneg (m e : Z) (l : location) :
  0 <= m -> 0 <= shr_m (fst (shr_fexp prec emax m e l)).
Proof.
  intros H. unfold shr_fexp. apply shr_nonneg.
  destruct l as [ | [ | | ]]; exact H.
Qed.

Lemma round_nearest_even_nonneg (m : Z) (l : location) :
  0 <= m -> 0 <= round_nearest_even m l.
Proof.
  intros H. destruct l as [ | [ | | ]]; simpl; try lia.
  destruct (Z.even m); lia.
Qed.

(** Rounding a magnitude never produces a NaN. *)
Lemma binary_round_aux_not_nan (sx : bool) (mx ex : Z) (lx : location) :
  0 <= mx -> isnan (binary_round_aux prec emax sx mx ex lx) = false.
Proof.
  intros H. unfold binary_round_aux.
  pose proof (shr_fexp_nonneg mx ex lx H) as H1.
  destruct (shr_fexp prec emax mx ex lx) as [mrs' e']. cbn [fst] in H1.
  pose proof (shr_fexp_nonneg
                (round_nearest_even (shr_m mrs') (loc_of_shr_record mrs'))
                e' loc_Exact (round_nearest_even_nonneg _ _ H1)) as H2.
  destruct (shr_fexp prec emax _ e' loc_Exact) as [mrs'' e'']. cbn [fst] in H2.
  destruct (shr_m mrs''); [ reflexivity | | lia ].
  destruct (e'' <=? emax - prec); reflexivity.
Qed.

Lemma binary_normalize_not_nan (m e : Z) (s : bool) :
  isnan (binary_normalize prec emax m e s) = false.
Proof.
  destruct m; simpl; trivial; unfold binary_round;
    destruct (shl_align _ _ _); apply binary_round_aux_not_nan; lia.
Qed.

(** The sum of two finite floats is a number, possibly infinite. *)
Lemma add_not_nan (x y : float) :
  isfinite x = true -> isfinite y = true -> isnan (add x y) = false.
Proof.
  destruct x as [sx | sx | | sx mx ex], y as [sy | sy | | sy my ey];
    try discriminate; intros _ _; unfold add, SFadd.
  - destruct sx, sy; reflexivity.
  - reflexivity.
  - reflexivity.
  - apply binary_normalize_not_nan.
Qed.

(** What the handlers leave alone. *)
Lemma set_timers_frame (self : GridOrder) :
  current_timestamp (set_timers self) = current_timestamp self
  /\ _order_refresh_time (set_timers self) = _order_refresh_time self
  /\ _filled_order_delay (set_timers self) = _filled_order_delay self.
Proof.
  unfold set_timers.
  destruct (leb (_create_timestamp self) (current_timestamp self));
    match goal with
    | |- context [if ?c then _ else _] => destruct c
    end; repeat split.
Qed.

Lemma did_complete_buy_order_frame (self : GridOrder)
  (ev : OrderCompletedEvent) :
  let self' := fst (did_complete_buy_order self ev) in
  current_timestamp self' = current_timestamp self
  /\ _order_refresh_time self' = _order_refresh_time self
  /\ _filled_order_delay self' = _filled_order_delay self.
Proof.
  unfold did_complete_buy_order.
  destruct (get_limit_order _ _); repeat split.
Qed.

Lemma did_complete_sell_order_frame (self : GridOrder)
  (ev : OrderCompletedEvent) :
  let self' := fst (did_complete_sell_order self ev) in
  current_timestamp self' = current_timestamp self
  /\ _order_refresh_time self' = _order_refresh_time self
  /\ _filled_order_delay self' = _filled_order_delay self.
Proof.
  unfold did_complete_sell_order.
  destruct (get_limit_order _ _); repeat split.
Qed.

Lemma did_complete_buy_order_keeps_order (self : GridOrder)
  (ev : OrderCompletedEvent) :
  timers_ordered self ->
  isnan (add (current_timestamp self) (_filled_order_delay self)) = false ->
  timers_ordered (fst (did_complete_buy_order self ev)).
Proof.
  intros Hord Hn. unfold timers_ordered in *.
  destruct (get_limit_order (_sb_order_tracker self) (order_id ev)) as [o | ]
    eqn:E.
  - rewrite (did_complete_buy_order_known self ev o E).
    apply fill_cooldown_order; trivial. now destruct (leb_not_nan _ _ Hord).
  - now rewrite (did_complete_buy_order_unknown self ev E).
Qed.

Lemma did_complete_sell_order_keeps_order (self : GridOrder)
  (ev : OrderCompletedEvent) :
  timers_ordered self ->
  isnan (add (current_timestamp self) (_filled_order_delay self)) = false ->
  timers_ordered (fst (did_complete_sell_order self ev)).
Proof.
  intros Hord Hn. unfold timers_ordered in *.
  destruct (get_limit_order (_sb_order_tracker self) (order_id ev)) as [o | ]
    eqn:E.
  - rewrite (did_complete_sell_order_known self ev o E).
    apply fill_cooldown_order; trivial. now destruct (leb_not_nan _ _ Hord).
  - now rewrite (did_complete_sell_order_unknown self ev E).
Qed.

Lemma handle_steady (self : GridOrder) (e : event) :
  well_timed e = true -> steady self -> steady (handle self e).
Proof.
  intros Hw (Hord & Ht & Hr & Hd). unfold steady.
  destruct e as [t | tr | | ev | ev]; cbn [handle well_timed] in *.
  - repeat split; assumption.
  - repeat split; assumption.
  - destruct (set_timers_frame self) as (E1 & E2 & E3).
    rewrite E1, E2, E3. repeat split; trivial.
    apply set_timers_keeps_order; trivial. now apply add_not_nan.
  - destruct (did_complete_buy_order_frame self ev) as (E1 & E2 & E3).
    rewrite E1, E2, E3. repeat split; trivial.
    apply did_complete_buy_order_keeps_order; trivial. now apply add_not_nan.
  - destruct (did_complete_sell_order_frame self ev) as (E1 & E2 & E3).
    rewrite E1, E2, E3. repeat split; trivial.
    apply did_complete_sell_order_keeps_order; trivial. now apply add_not_nan.
Qed.

Lemma run_steady (events : list event) :
  forallb well_timed events = true ->
  forall self, steady self -> steady (run self events).
Proof.
  unfold run. induction events as [ | e events IH]; intros Hw self Hs.
  - exact Hs.
  - cbn [forallb] in Hw. apply andb_true_iff in Hw. destruct Hw as [He Hw].
    cbn [fold_left]. apply IH; trivial. now apply handle_steady.
Qed.

(** X11.  From construction on, whatever arrives, with clock readings that
    are finite numbers, the cancel deadline never passes the create
    deadline. *)
Theorem timers_ordered_always (market_info : PriceProvider)
  (price_ceiling price_floor : Decimal)
  (base_percentage quote_percentage rebalance_percentage : Decimal)
  (price_type : PriceType) (clock : float) (events : list event) :
  isfinite clock = true ->
  forallb well_timed events = true ->
  timers_ordered
    (run (new_strategy market_info price_ceiling price_floor base_percentage
                       quote_percentage rebalance_percentage price_type clock)
         events).
Proof.
  intros Hc Hw. apply run_steady; trivial.
  repeat split; trivial.
Qed.

(** ** More on create_base_proposal *)

Lemma sell_level_first (self : GridOrder) (base_balance : float)
  (ask : Decimal) :
  let sz := sell_size_of self base_balance in
  sell_level base_balance ask 0%nat ([], self) =
  if gtb sz zero
  then Ok ([mkPriceSize ask (from_float sz)], set_order_amount sz self)
  else Ok ([], self).
Proof.
  intros sz. unfold sell_level.
  rewrite (truediv_ok _ hundred) by reflexivity. cbn [bind].
  fold (sell_size_of self base_balance). fold sz.
  destruct (gtb sz zero); reflexivity.
Qed.

(** Every path through [create_base_proposal] once the total is not
    zero. *)
Lemma create_base_proposal_cases (self : GridOrder)
  (base_balance quote_balance : float) :
  is_zero (add base_balance quote_balance) = false ->
  let bid := get_price_by_type (market (_market_info self)) BestBid in
  let ask := get_price_by_type (market (_market_info self)) BestAsk in
  let bsz := buy_size_of self quote_balance bid in
  let ssz := sell_size_of self base_balance in
  create_base_proposal self base_balance quote_balance =
  if base_deficient self base_balance quote_balance
  then if is_zero (to_float bid) then Raise ZeroDivisionError
       else if gtb bsz zero
            then Ok (mkProposal [mkPriceSize bid (from_float bsz)] [],
                     set_order_amount bsz self)
            else Ok (mkProposal [] [], self)
  else if base_excess self base_balance quote_balance
       then if gtb ssz zero
            then Ok (mkProposal [] [mkPriceSize ask (from_float ssz)],
                     set_order_amount ssz self)
            else Ok (mkProposal [] [], self)
       else Ok (mkProposal [] [], self).
Proof.
  intros Htot bid ask bsz ssz.
  rewrite create_base_proposal_branches by assumption.
  unfold base_deficient, base_excess. fold bid ask.
  destruct (negb (is_nan bid) && ltb _ _).
  - rewrite buy_level_first. fold bsz.
    destruct (is_zero (to_float bid)); [ reflexivity | ].
    destruct (gtb bsz zero); reflexivity.
  - destruct (negb (is_nan ask) && gtb _ _); [ | reflexivity ].
    rewrite sell_level_first. fold ssz.
    destruct (gtb ssz zero); reflexivity.
Qed.

Lemma lowest_terms_nonneg (m : positive) :
  forall (k : Z) (n : positive) (k' : Z),
    0 <= k -> lowest_terms m k = (n, k') -> 0 <= k'.
Proof.
  induction m as [m IH | m IH | ]; intros k n k' Hk; cbn [lowest_terms].
  - intros [= _ <-]. exact Hk.
  - destruct (0 <? k) eqn:E.
    + apply IH. apply Z.ltb_lt in E. lia.
    + intros [= _ <-]. exact Hk.
  - intros [= _ <-]. exact Hk.
Qed.

Lemma to_N_positive (z : Z) :
  0 < z -> exists p, Z.to_N z = Npos p.
Proof. destruct z; try lia. intros _. eexists. reflexivity. Qed.

(** The decimal of a float above zero is above zero. *)
Lemma from_float_positive (f : float) :
  gtb f zero = true -> positive_decimal (from_float f).
Proof.
  destruct f as [s | s | | s m e]; try discriminate.
  - destruct s; [ discriminate | intros _; exact I ].
  - destruct s; [ discriminate | intros _ ].
    destruct e as [ | p | p]; cbn [from_float].
    + destruct (to_N_positive (Z.pos m * 2 ^ 0)) as [q ->]; [ lia | exact I ].
    + destruct (to_N_positive (Z.pos m * 2 ^ Z.pos p)) as [q ->];
        [ | exact I ].
      apply Z.mul_pos_pos; [ lia | apply Z.pow_pos_nonneg; lia ].
    + destruct (lowest_terms m (Z.pos p)) as [n k] eqn:L.
      pose proof (lowest_terms_nonneg m (Z.pos p) n k ltac:(lia) L) as Hk.
      destruct (to_N_positive (Z.pos n * 5 ^ k)) as [q ->]; [ | exact I ].
      apply Z.mul_pos_pos; [ lia | apply Z.pow_pos_nonneg; lia ].
Qed.

Lemma set_order_amount_same (self : GridOrder) :
  set_order_amount (_order_amount self) self = self.
Proof. destruct self. reflexivity. Qed.

(** X1.  The sell side.  When the total is not zero, the buy branch is not
    taken (the best bid is NaN or the base percentage is not below target
    minus tolerance), the best ask is not NaN and the base percentage is
    above target plus tolerance, [create_base_proposal] returns, with no
    buys and with one sell leg at the best ask of size
    [base_balance * rebalance_percentage / 100.0] rounded to two decimal
    places when that size is positive, and no leg otherwise; the size of the
    leg becomes the order amount. *)
Theorem create_base_proposal_sell_side (self : GridOrder)
  (base_balance quote_balance : float) :
  let bid := get_price_by_type (market (_market_info self)) BestBid in
  let ask := get_price_by_type (market (_market_info self)) BestAsk in
  let pct := base_percentage_of base_balance quote_balance in
  let target := _base_percentage self in
  let tol := _rebalance_percentage self in
  let sz := sell_size_of self base_balance in
  is_zero (add base_balance quote_balance) = false ->
  is_nan bid = true \/ ltb pct (sub target tol) = false ->
  is_nan ask = false ->
  gtb pct (add target tol) = true ->
  create_base_proposal self base_balance quote_balance =
  if gtb sz zero
  then Ok (mkProposal [] [mkPriceSize ask (from_float sz)],
           set_order_amount sz self)
  else Ok (mkProposal [] [], self).
Proof.
  intros bid ask pct target tol sz Htot Hbuy Hask Hhigh.
  rewrite create_base_proposal_cases by assumption.
  unfold base_deficient, base_excess.
  fold bid ask pct target tol sz.
  assert (E : negb (is_nan bid) && ltb pct (sub target tol) = false).
  { destruct Hbuy as [-> | ->]; [ reflexivity | apply andb_false_r ]. }
  rewrite E, Hask, Hhigh. cbn [negb andb].
  destruct (gtb sz zero); reflexivity.
Qed.

(** All in base, worth 1000, against a 50/50 target with tolerance 1: one
    sell leg at 101 of size 10. *)
Lemma create_base_proposal_sell_side_witness :
  let self := strategy_50_50 zero in
  create_base_proposal self (of_Z 1000) zero
  = Ok (mkProposal [] [mkPriceSize (dec 101) (dec 10)],
        set_order_amount (of_Z 10) self).
Proof.
  intros self.
  rewrite (create_base_proposal_sell_side self (of_Z 1000) zero);
    try reflexivity.
  right. reflexivity.
Defined.

(** X2.  The shape of a proposal.  Whatever the balances, a proposal that
    [create_base_proposal] returns holds at most one leg, so never a buy
    and a sell together; a buy leg is priced at the best bid, a sell leg at
    the best ask, and the size of a leg is above zero. *)
Theorem create_base_proposal_one_sided (self : GridOrder)
  (base_balance quote_balance : float) (p : Proposal) (self' : GridOrder) :
  create_base_proposal self base_balance quote_balance = Ok (p, self') ->
  (List.length (buys p) + List.length (sells p) <= 1)%nat
  /\ (buys p = [] \/ sells p = [])
  /\ (forall leg, In leg (buys p) ->
        price leg = get_price_by_type (market (_market_info self)) BestBid
        /\ positive_decimal (size leg))
  /\ (forall leg, In leg (sells p) ->
        price leg = get_price_by_type (market (_market_info self)) BestAsk
        /\ positive_decimal (size leg)).
Proof.
  destruct (is_zero (add base_balance quote_balance)) eqn:Htot.
  { rewrite (create_base_proposal_zero_total _ _ _ Htot). discriminate. }
  rewrite create_base_proposal_cases by assumption.
  set (bid := get_price_by_type (market (_market_info self)) BestBid).
  set (ask := get_price_by_type (market (_market_info self)) BestAsk).
  set (bsz := buy_size_of self quote_balance bid).
  set (ssz := sell_size_of self base_balance).
  destruct (base_deficient self base_balance quote_balance).
  - destruct (is_zero (to_float bid)); [ discriminate | ].
    destruct (gtb bsz zero) eqn:Hs; intros [= <- _]; cbn [buys sells List.length].
    + repeat split; auto; try contradiction.
      * destruct H as [<- | []]. reflexivity.
      * destruct H as [<- | []]. now apply from_float_positive.
    + repeat split; auto; contradiction.
  - destruct (base_excess self base_balance quote_balance).
    + destruct (gtb ssz zero) eqn:Hs; intros [= <- _];
        cbn [buys sells List.length].
      * repeat split; auto; try contradiction.
        -- destruct H as [<- | []]. reflexivity.
        -- destruct H as [<- | []]. now apply from_float_positive.
      * repeat split; auto; contradiction.
    + intros [= <- _]. cbn [buys sells List.length].
      repeat split; auto; contradiction.
Qed.

Lemma create_base_proposal_one_sided_witness :
  let self := strategy_50_50 zero in
  let leg := mkPriceSize (dec 101) (dec 10) in
  price leg = dec 101 /\ positive_decimal (size leg).
Proof.
  intros self leg.
  apply (create_base_proposal_one_sided self (of_Z 1000) zero
           (mkProposal [] [leg]) (set_order_amount (of_Z 10) self)).
  - reflexivity.
  - left. reflexivity.
Defined.

(** X3.  What [create_base_proposal] does to the strategy object.  It
    assigns nothing but the order amount; it assigns that only when it
    proposes a leg, and then to the size of the leg. *)
Theorem create_base_proposal_records_order_amount (self : GridOrder)
  (base_balance quote_balance : float) (p : Proposal) (self' : GridOrder) :
  create_base_proposal self base_balance quote_balance = Ok (p, self') ->
  self' = set_order_amount (_order_amount self') self
  /\ (p = mkProposal [] [] -> self' = self)
  /\ (forall leg, In leg (buys p ++ sells p) ->
        size leg = from_float (_order_amount self')).
Proof.
  destruct (is_zero (add base_balance quote_balance)) eqn:Htot.
  { rewrite (create_base_proposal_zero_total _ _ _ Htot). discriminate. }
  rewrite create_base_proposal_cases by assumption.
  set (bid := get_price_by_type (market (_market_info self)) BestBid).
  set (ask := get_price_by_type (market (_market_info self)) BestAsk).
  set (bsz := buy_size_of self quote_balance bid).
  set (ssz := sell_size_of self base_balance).
  assert (Hempty :
            Ok (mkProposal [] [], self) = Ok (p, self') ->
            self' = set_order_amount (_order_amount self') self
            /\ (p = mkProposal [] [] -> self' = self)
            /\ (forall leg, In leg (buys p ++ sells p) ->
                  size leg = from_float (_order_amount self'))).
  { intros [= <- <-]. split; [ | split ].
    - symmetry. apply set_order_amount_same.
    - reflexivity.
    - intros leg []. }
  assert (Hleg :
            forall (px : Decimal) (sz : float) (bs ss : list PriceSize),
              bs ++ ss = [mkPriceSize px (from_float sz)] ->
              Ok (mkProposal bs ss, set_order_amount sz self) = Ok (p, self') ->
              self' = set_order_amount (_order_amount self') self
              /\ (p = mkProposal [] [] -> self' = self)
              /\ (forall leg, In leg (buys p ++ sells p) ->
                    size leg = from_float (_order_amount self'))).
  { intros px sz bs ss Hone [= <- <-]. cbn [buys sells]. split; [ | split ].
    - reflexivity.
    - intros [= -> ->]. discriminate Hone.
    - rewrite Hone. intros leg [<- | []]. reflexivity. }
  destruct (base_deficient self base_balance quote_balance).
  - destruct (is_zero (to_float bid)); [ discriminate | ].
    destruct (gtb bsz zero); [ apply (Hleg bid bsz); reflexivity | exact Hempty ].
  - destruct (base_excess self base_balance quote_balance);
      [ | exact Hempty ].
    destruct (gtb ssz zero); [ apply (Hleg ask ssz); reflexivity | exact Hempty ].
Qed.

Lemma create_base_proposal_records_order_amount_witness :
  let self := strategy_50_50 zero in
  let self' := set_order_amount (of_Z 10) self in
  self' = set_order_amount (_order_amount self') self
  /\ _create_timestamp self' = _create_timestamp self.
Proof.
  intros self self'.
  destruct (create_base_proposal_records_order_amount self (of_Z 1000) zero
              (mkProposal [] [mkPriceSize (dec 101) (dec 10)]) self')
    as (E & _ & _); [ reflexivity | ].
  split; [ exact E | reflexivity ].
Defined.

(** X4.  The errors of [create_base_proposal].  It raises nothing but
    ZeroDivisionError, and raises it exactly when the total of the two
    balances is zero, or when it takes the buy branch and the best bid is
    zero as a float; the sell branch never raises. *)
Theorem create_base_proposal_raises_iff (self : GridOrder)
  (base_balance quote_balance : float) (e : exn) :
  create_base_proposal self base_balance quote_balance = Raise e <->
  e = ZeroDivisionError
  /\ (is_zero (add base_balance quote_balance) = true
      \/ (base_deficient self base_balance quote_balance = true
          /\ is_zero (to_float (get_price_by_type (market (_market_info self))
                                                  BestBid)) = true)).
Proof.
  destruct (is_zero (add base_balance quote_balance)) eqn:Htot.
  { rewrite (create_base_proposal_zero_total _ _ _ Htot). split.
    - intros [= <-]. auto.
    - intros [-> _]. reflexivity. }
  rewrite create_base_proposal_cases by assumption.
  set (bid := get_price_by_type (market (_market_info self)) BestBid).
  destruct (base_deficient self base_balance quote_balance).
  - destruct (is_zero (to_float bid)).
    + split; [ intros [= <-]; auto | intros [-> _]; reflexivity ].
    + destruct (gtb _ zero); split; try discriminate;
        intros [_ [H | [_ H]]]; discriminate H.
  - destruct (base_excess self base_balance quote_balance);
      [ destruct (gtb _ zero) | ]; split; try discriminate;
      intros [_ [H | [H _]]]; discriminate H.
Qed.

Lemma create_base_proposal_of_nan (self : GridOrder)
  (base_balance quote_balance : float) :
  isnan base_balance = true \/ isnan quote_balance = true ->
  create_base_proposal self base_balance quote_balance
  = Ok (mkProposal [] [], self).
Proof.
  intros Hnan.
  assert (Htot : add base_balance quote_balance = S754_nan).
  { destruct Hnan as [H | H].
    - destruct base_balance; try discriminate H. reflexivity.
    - destruct quote_balance; try discriminate H.
      now destruct base_balance. }
  assert (Hpct : base_percentage_of base_balance quote_balance = S754_nan).
  { unfold base_percentage_of. rewrite Htot.
    now destruct (mul hundred base_balance). }
  rewrite create_base_proposal_cases by now rewrite Htot.
  unfold base_deficient, base_excess, gtb. rewrite Hpct.
  assert (L : forall x, ltb x S754_nan = false) by now destruct x.
  assert (L' : forall x, ltb S754_nan x = false) by reflexivity.
  rewrite L, L', !andb_false_r. reflexivity.
Qed.

(** X5.  A balance that is NaN, as when the reference price is NaN, gives
    the empty proposal and no error. *)
Theorem create_base_proposal_nan_balance (self : GridOrder)
  (base_balance quote_balance : float) :
  isnan base_balance = true \/ isnan quote_balance = true ->
  create_base_proposal self base_balance quote_balance
  = Ok (mkProposal [] [], self).
Proof. apply create_base_proposal_of_nan. Qed.

Lemma create_base_proposal_nan_balance_witness :
  create_base_proposal (strategy_50_50 zero) S754_nan (of_Z 1000)
  = Ok (mkProposal [] [], strategy_50_50 zero).
Proof.
  apply (create_base_proposal_nan_balance (strategy_50_50 zero)).
  left. reflexivity.
Defined.

Lemma create_base_proposal_raises_iff_witness :
  let self :=
    new_strategy (mkPriceProvider (order_book (dec 0) (dec 101) (dec 50)))
                 (dec 0) (dec 0) (dec 50) (dec 50) (dec 1) MidPrice zero in
  create_base_proposal self zero (of_Z 1000) = Raise ZeroDivisionError.
Proof.
  intros self.
  apply (proj2 (create_base_proposal_raises_iff self zero (of_Z 1000)
                  ZeroDivisionError)).
  split; [ reflexivity | right; split; reflexivity ].
Defined.

(** ** More on apply_price_band *)

Lemma ge_float_against_number (d : Decimal) (f : float) :
  is_nan (from_float f) = false ->
  ge_float d f =
  if is_nan d then Raise InvalidOperation
  else Ok (match cmp d (from_float f) with Lt => false | _ => true end).
Proof. intros H. unfold ge_float. rewrite H, orb_false_r. reflexivity. Qed.

Lemma le_float_against_number (d : Decimal) (f : float) :
  is_nan (from_float f) = false ->
  le_float d f =
  if is_nan d then Raise InvalidOperation
  else Ok (match cmp d (from_float f) with Gt => false | _ => true end).
Proof. intros H. unfold le_float. rewrite H, orb_false_r. reflexivity. Qed.

Lemma apply_price_band_nan_price (self : GridOrder) (p : Proposal) :
  is_nan (get_price self) = true ->
  gtb (price_ceiling self) zero = true \/ gtb (price_floor self) zero = true ->
  apply_price_band self p = Raise InvalidOperation.
Proof.
  intros Hn Hb. unfold apply_price_band, ceiling_check, floor_check.
  destruct (gtb (price_ceiling self) zero) eqn:Hc.
  - rewrite (ge_float_against_number _ _ (positive_bound_not_nan _ Hc)), Hn.
    reflexivity.
  - destruct Hb as [Hb | Hb]; [ discriminate Hb | ].
    cbn [bind]. rewrite Hb.
    rewrite (le_float_against_number _ _ (positive_bound_not_nan _ Hb)), Hn.
    reflexivity.
Qed.

(** X6.  The errors of [apply_price_band].  It raises nothing but
    InvalidOperation, and raises it exactly when the reference price is NaN
    and at least one of the two bounds is positive. *)
Theorem apply_price_band_raises_iff (self : GridOrder) (p : Proposal)
  (e : exn) :
  apply_price_band self p = Raise e <->
  e = InvalidOperation
  /\ is_nan (get_price self) = true
  /\ (gtb (price_ceiling self) zero = true
      \/ gtb (price_floor self) zero = true).
Proof.
  unfold apply_price_band, ceiling_check, floor_check.
  destruct (gtb (price_ceiling self) zero) eqn:Hc;
    destruct (gtb (price_floor self) zero) eqn:Hf;
    try rewrite (ge_float_against_number _ _ (positive_bound_not_nan _ Hc));
    try rewrite (le_float_against_number _ _ (positive_bound_not_nan _ Hf));
    destruct (is_nan (get_price self)); cbn [bind];
    (split;
     [ intros E; try discriminate E; injection E as <-; auto
     | intros (-> & Hn & [H | H]); try discriminate; reflexivity ]).
Qed.

(** An empty order book and a ceiling of 100. *)
Lemma apply_price_band_raises_iff_witness :
  let self :=
    new_strategy empty_book (dec 100) (dec 0) (dec 50) (dec 50) (dec 1)
                 MidPrice zero in
  apply_price_band self (mkProposal [] []) = Raise InvalidOperation.
Proof.
  intros self.
  apply (proj2 (apply_price_band_raises_iff self (mkProposal [] [])
                  InvalidOperation)).
  split; [ reflexivity | split; [ reflexivity | left; reflexivity ] ].
Defined.

(** X7.  All or nothing.  With a reference price that is a number,
    [apply_price_band] never raises, and what it does is the same for
    every proposal: it returns each proposal untouched, or it returns the
    empty proposal for each. *)
Theorem apply_price_band_all_or_nothing (self : GridOrder) :
  is_nan (get_price self) = false ->
  exists clears : bool,
    forall p : Proposal,
      apply_price_band self p = Ok (if clears then mkProposal [] [] else p).
Proof.
  intros Hn. unfold apply_price_band, ceiling_check, floor_check.
  destruct (gtb (price_ceiling self) zero) eqn:Hc;
    destruct (gtb (price_floor self) zero) eqn:Hf;
    try rewrite (ge_float_against_number _ _ (positive_bound_not_nan _ Hc));
    try rewrite (le_float_against_number _ _ (positive_bound_not_nan _ Hf));
    rewrite ?Hn; cbn [bind].
  - destruct (cmp (get_price self) (from_float (price_ceiling self)));
      destruct (cmp (get_price self) (from_float (price_floor self)));
      ((exists true; intros p; reflexivity)
       || (exists false; intros p; reflexivity)).
  - destruct (cmp (get_price self) (from_float (price_ceiling self)));
      ((exists true; intros p; reflexivity)
       || (exists false; intros p; reflexivity)).
  - destruct (cmp (get_price self) (from_float (price_floor self)));
      ((exists true; intros p; reflexivity)
       || (exists false; intros p; reflexivity)).
  - exists false. intros p. reflexivity.
Qed.

Lemma apply_price_band_all_or_nothing_witness :
  exists clears : bool,
    forall p : Proposal,
      apply_price_band (strategy_banded zero) p
      = Ok (if clears then mkProposal [] [] else p).
Proof.
  apply (apply_price_band_all_or_nothing (strategy_banded zero)).
  reflexivity.
Defined.

(** ** More on the lifecycle monitor and the timers *)

(** X8.  [cancel_active_orders_on_max_age_limit] requests nothing but
    cancellations, each of an active order that is not hanging: a hanging
    order is never cancelled for its age, whatever the ages are. *)
Theorem cancel_on_max_age_limit_spares_hanging_orders
  (order_age : LimitOrder -> float) (self : GridOrder) (e : effect) :
  In e (cancel_active_orders_on_max_age_limit order_age self) ->
  exists o,
    e = cancel_order (client_order_id o)
    /\ In o (active_orders self)
    /\ is_order_id_in_hanging_orders (_hanging_orders_tracker self)
         (client_order_id o) = false.
Proof.
  unfold cancel_active_orders_on_max_age_limit.
  destruct (negb _ && existsb _ _); [ | intros [] ].
  intros Hin. apply in_map_iff in Hin. destruct Hin as (o & <- & Ho).
  exists o. split; [ reflexivity | ].
  now apply active_non_hanging_orders_spec.
Qed.

Lemma cancel_on_max_age_limit_spares_hanging_orders_witness :
  let self := set_sb_order_tracker tracker_7_8 (strategy_50_50 (of_Z 1000)) in
  let one_stale := fun o => if is_buy o then of_Z 31 else of_Z 5 in
  exists o,
    cancel_order "sell-8" = cancel_order (client_order_id o)
    /\ In o (active_orders self)
    /\ is_order_id_in_hanging_orders (_hanging_orders_tracker self)
         (client_order_id o) = false.
Proof.
  intros self one_stale.
  apply (cancel_on_max_age_limit_spares_hanging_orders one_stale self).
  right. left. reflexivity.
Defined.

Lemma set_timers_unfold (self : GridOrder) :
  set_timers self =
  set_cancel_timestamp (_cancel_timestamp (set_timers self))
    (set_create_timestamp (_create_timestamp (set_timers self)) self).
Proof.
  destruct self. unfold set_timers.
  cbn [_create_timestamp _cancel_timestamp current_timestamp
       _order_refresh_time].
  repeat match goal with
         | |- context [if ?c then _ else _] => destruct c
         end; reflexivity.
Qed.

(** X9.  Arming the timers twice at the same clock reading is arming them
    once. *)
Theorem set_timers_idempotent (self : GridOrder) :
  set_timers (set_timers self) = set_timers self.
Proof.
  rewrite (set_timers_unfold (set_timers self)).
  rewrite (set_timers_unfold self) at 3 4.
  assert (Hc : _create_timestamp (set_timers (set_timers self))
               = _create_timestamp (set_timers self)).
  { rewrite (set_timers_create (set_timers self)).
    destruct (set_timers_frame self) as (-> & -> & _).
    rewrite (set_timers_create self).
    destruct (leb (_create_timestamp self) (current_timestamp self)) eqn:E.
    - match goal with
      | |- context [if ?c then _ else _] => destruct c
      end; reflexivity.
    - now rewrite E. }
  assert (Hk : _cancel_timestamp (set_timers (set_timers self))
               = _cancel_timestamp (set_timers self)).
  { rewrite (set_timers_cancel (set_timers self)), Hc.
    destruct (set_timers_frame self) as (-> & -> & _).
    destruct (leb (_cancel_timestamp (set_timers self))
                  (current_timestamp self)) eqn:E; [ | reflexivity ].
    rewrite (set_timers_cancel self) in *.
    destruct (leb (_cancel_timestamp self) (current_timestamp self)) eqn:E';
      [ reflexivity | congruence ]. }
  rewrite Hc, Hk.
  generalize (_cancel_timestamp (set_timers self))
             (_create_timestamp (set_timers self)).
  intros k c. destruct self. reflexivity.
Qed.

Lemma min_absorbs (c x : float) : min (min c x) x = min c x.
Proof.
  destruct (min_cases c x) as [[L ->] | [L ->]].
  - apply min_same.
  - unfold min. now rewrite L.
Qed.

(** X10.  A completion event that arrives twice for an order the tracker
    still holds leaves the timers as after the first, but is counted and
    notified a second time. *)
Theorem duplicate_completion_counts_twice (self : GridOrder)
  (ev : OrderCompletedEvent) (o : LimitOrder) :
  get_limit_order (_sb_order_tracker self) (order_id ev) = Some o ->
  let bought := fst (did_complete_buy_order self ev) in
  let bought_again := fst (did_complete_buy_order bought ev) in
  let sold := fst (did_complete_sell_order self ev) in
  let sold_again := fst (did_complete_sell_order sold ev) in
  (_create_timestamp bought_again = _create_timestamp bought
   /\ _cancel_timestamp bought_again = _cancel_timestamp bought
   /\ _filled_buys_balance bought_again = _filled_buys_balance self + 2
   /\ snd (did_complete_buy_order bought ev)
      = snd (did_complete_buy_order self ev))
  /\ (_create_timestamp sold_again = _create_timestamp sold
      /\ _cancel_timestamp sold_again = _cancel_timestamp sold
      /\ _filled_sells_balance sold_again = _filled_sells_balance self + 2
      /\ snd (did_complete_sell_order sold ev)
         = snd (did_complete_sell_order self ev)).
Proof.
  intros H bought bought_again sold sold_again.
  subst bought_again sold_again bought sold.
  assert (Hb : get_limit_order
                 (_sb_order_tracker (fst (did_complete_buy_order self ev)))
                 (order_id ev) = Some o).
  { now rewrite (did_complete_buy_order_known self ev o H). }
  assert (Hs : get_limit_order
                 (_sb_order_tracker (fst (did_complete_sell_order self ev)))
                 (order_id ev) = Some o).
  { now rewrite (did_complete_sell_order_known self ev o H). }
  rewrite (did_complete_buy_order_known _ ev o Hb).
  rewrite (did_complete_sell_order_known _ ev o Hs).
  rewrite (did_complete_buy_order_known self ev o H).
  rewrite (did_complete_sell_order_known self ev o H).
  cbn [fst snd set_last_own_trade_price set_filled_buys_balance
       set_filled_sells_balance set_cancel_timestamp set_create_timestamp
       _create_timestamp _cancel_timestamp _filled_buys_balance
       _filled_sells_balance current_timestamp _filled_order_delay].
  rewrite min_absorbs.
  repeat split; lia.
Qed.

Lemma duplicate_completion_counts_twice_witness :
  let self := set_sb_order_tracker tracker_7_8 (strategy_50_50 (of_Z 1000)) in
  let ev := mkCompleted "buy-7" in
  _filled_buys_balance
    (fst (did_complete_buy_order (fst (did_complete_buy_order self ev)) ev))
  = 0 + 2.
Proof.
  intros self ev.
  destruct (duplicate_completion_counts_twice self ev buy_order_7 eq_refl)
    as [(_ & _ & E & _) _].
  exact E.
Defined.

(** ** The ratios of the status report *)

(** X12.  The ratios of [pure_mm_assets_df] are guarded.  For every pair of
    balances and every mid price the computation returns: the two ratios
    are the shares of the total when the total is above zero, and both 0
    otherwise, a zero or NaN total included. *)
Theorem asset_ratios_never_raise (balance_base balance_quote price : Decimal) :
  let base_value := mul (to_float balance_base) (to_float price) in
  let quote_balance := to_float balance_quote in
  let total_in_quote := add base_value quote_balance in
  asset_ratios balance_base balance_quote price =
  Ok (if gtb total_in_quote zero
      then (SFdiv prec emax base_value total_in_quote,
            SFdiv prec emax quote_balance total_in_quote)
      else (zero, zero)).
Proof.
  intros base_value quote_balance total_in_quote.
  unfold asset_ratios. fold base_value quote_balance total_in_quote.
  destruct (gtb total_in_quote zero) eqn:E; [ | reflexivity ].
  rewrite !truediv_ok by now apply positive_not_zero.
  reflexivity.
Qed.

(** ** The price type of the configuration *)

Ltac price_type_cases :=
  unfold get_price_type in *;
  repeat match goal with
    | H : context [String.eqb ?a ?b] |- _ =>
        destruct (String.eqb_spec a b); try subst a
    | |- context [String.eqb ?a ?b] =>
        destruct (String.eqb_spec a b); try subst a
    end.

(** X13.  [get_price_type] accepts seven strings, one for each price type:
    two strings that give the same price type are the same string, every
    price type is given by some string, and any other string raises
    ValueError with a message that quotes it. *)
Theorem get_price_type_one_string_each :
  (forall (s1 s2 : string) (t : PriceType),
      get_price_type s1 = Returned t -> get_price_type s2 = Returned t ->
      s1 = s2)
  /\ (forall t : PriceType, exists s, get_price_type s = Returned t)
  /\ (forall s : string,
        (exists t, get_price_type s = Returned t)
        \/ get_price_type s
           = ValueError (String.append "Unrecognized price type string "
                           (String.append s "."))).
Proof.
  split; [ | split ].
  - intros s1 s2 t H1 H2. price_type_cases; congruence.
  - intros [ | | | | | | ];
      [ exists "mid_price"%string | exists "best_bid"%string
      | exists "best_ask"%string | exists "last_price"%string
      | exists "last_own_trade_price"%string
      | exists "inventory_cost"%string | exists "custom"%string ];
      reflexivity.
  - intros s. price_type_cases; eauto.
Qed.

Lemma get_price_type_one_string_each_witness :
  get_price_type "last_price" = Returned LastTrade
  /\ get_price_type "Mid_Price"
     = ValueError "Unrecognized price type string Mid_Price.".
Proof.
  split; [ reflexivity | ].
  destruct (proj2 (proj2 get_price_type_one_string_each) "Mid_Price"%string)
    as [[t E] | E]; [ discriminate E | exact E ].
Defined.

(** ** The trading pair of start *)

Lemma split_not_empty (sep : ascii) (s : string) : split sep s <> [].
Proof.
  destruct s as [ | c rest]; cbn [split]; [ discriminate | ].
  destruct (Ascii.eqb c sep); [ discriminate | ].
  destruct (split sep rest); discriminate.
Qed.

Lemma join_cons (sep : ascii) (part : string) (parts : list string) :
  parts <> [] ->
  join sep (part :: parts) = String.append part (String sep (join sep parts)).
Proof. destruct parts; [ contradiction | reflexivity ]. Qed.

(** [sep.join(s.split(sep)) == s] *)
Lemma join_split (sep : ascii) (s : string) : join sep (split sep s) = s.
Proof.
  induction s as [ | c rest IH]; cbn [split]; [ reflexivity | ].
  destruct (Ascii.eqb_spec c sep) as [-> | _].
  - rewrite join_cons by apply split_not_empty. now rewrite IH.
  - pose proof (split_not_empty sep rest) as Hne.
    destruct (split sep rest) as [ | head tail]; [ contradiction | ].
    destruct tail as [ | part tail].
    + cbn [join] in *. now rewrite IH.
    + rewrite join_cons by discriminate.
      rewrite join_cons in IH by discriminate.
      cbn [String.append]. now rewrite IH.
Qed.

Lemma split_parts_clean (sep : ascii) (s : string) :
  Forall (fun part => contains sep part = false) (split sep s).
Proof.
  induction s as [ | c rest IH]; cbn [split].
  - repeat constructor.
  - destruct (Ascii.eqb c sep) eqn:E.
    + constructor; [ reflexivity | exact IH ].
    + destruct (split sep rest) as [ | head tail]; [ repeat constructor; cbn; now rewrite E | ].
      inversion IH as [ | ? ? Hh Ht]; subst.
      constructor; [ cbn [contains]; now rewrite E, Hh | exact Ht ].
Qed.

Lemma split_clean (sep : ascii) (s : string) :
  contains sep s = false -> split sep s = [s].
Proof.
  induction s as [ | c rest IH]; cbn [split contains]; [ reflexivity | ].
  intros H. apply orb_false_iff in H. destruct H as [E H].
  rewrite E, (IH H). reflexivity.
Qed.

Lemma split_at_first (sep : ascii) (a b : string) :
  contains sep a = false ->
  split sep (String.append a (String sep b)) = a :: split sep b.
Proof.
  induction a as [ | c rest IH]; cbn [split contains String.append].
  - intros _. now rewrite Ascii.eqb_refl.
  - intros H. apply orb_false_iff in H. destruct H as [E H].
    rewrite E, (IH H). reflexivity.
Qed.

(** X14.  The trading pair.  [base, quote = market.split("-")] succeeds
    exactly when the market name is a base, one hyphen and a quote, neither
    of which holds a hyphen; it then returns that base and that quote, and
    otherwise raises ValueError. *)
Theorem base_and_quote_iff (market base quote : string) :
  base_and_quote market = Returned (base, quote) <->
  market = String.append base (String "-" quote)
  /\ contains "-" base = false
  /\ contains "-" quote = false.
Proof.
  unfold base_and_quote. split.
  - pose proof (join_split "-" market) as J.
    pose proof (split_parts_clean "-" market) as C.
    destruct (split "-" market) as [ | b [ | q [ | r rest]]];
      try discriminate.
    intros [= <- <-]. cbn [join] in J.
    inversion C as [ | ? ? Cb C']; subst.
    inversion C' as [ | ? ? Cq _]; subst. auto.
  - intros (-> & Hb & Hq).
    rewrite (split_at_first _ _ _ Hb), (split_clean _ _ Hq). reflexivity.
Qed.

Lemma base_and_quote_iff_witness :
  base_and_quote "ETH-USDT" = Returned ("ETH"%string, "USDT"%string).
Proof.
  apply (proj2 (base_and_quote_iff "ETH-USDT" "ETH" "USDT")).
  repeat split.
Defined.

Example base_and_quote_without_hyphen :
  base_and_quote "ETHUSDT"
  = ValueError "not enough values to unpack (expected 2, got 1)".
Proof. reflexivity. Qed.

Example base_and_quote_two_hyphens :
  base_and_quote "ETH-USDT-PERP"
  = ValueError "too many values to unpack (expected 2)".
Proof. reflexivity. Qed.

(** ** execute_orders_proposal *)

Lemma fold_left_submit (f : PriceSize -> action) (legs : list PriceSize) :
  forall (created : bool) (out : list action),
    fold_left
      (fun (vars : bool * list action) (leg : PriceSize) =>
         let '(_, out) := vars in (true, out ++ [f leg]))
      legs (created, out)
    = (created || negb (Nat.eqb (List.length legs) 0), out ++ map f legs).
Proof.
  induction legs as [ | leg legs IH]; intros created out; cbn [fold_left].
  - cbn. now rewrite orb_false_r, app_nil_r.
  - rewrite IH. cbn [List.length Nat.eqb negb map].
    now rewrite orb_true_r, <- app_assoc.
Qed.

Lemma submit_side_spec (s : Strategy) (side : TradeType)
  (legs : list PriceSize) (created : bool) :
  submit_side s side legs created =
  (created || negb (Nat.eqb (List.length legs) 0),
   (if Nat.eqb (List.length legs) 0 then []
    else if Z.eqb (Z.land (_logging_options s) OPTION_LOG_CREATE_ORDER) 0
         then [] else [logger_info_creating side legs])
   ++ map (order_request s side) legs).
Proof.
  unfold submit_side. destruct legs as [ | leg legs].
  - cbn. now rewrite orb_false_r.
  - cbn [List.length Nat.ltb Nat.leb Nat.eqb].
    now rewrite (fold_left_submit (order_request s side)).
Qed.

Lemma filter_submits_requests (s : Strategy) (side : TradeType)
  (legs : list PriceSize) :
  filter submits (map (order_request s side) legs)
  = map (order_request s side) legs.
Proof.
  induction legs as [ | leg legs IH]; [ reflexivity | ].
  cbn [map filter]. rewrite IH. now destruct side.
Qed.

Lemma filter_submits_side (s : Strategy) (side : TradeType)
  (legs : list PriceSize) (created : bool) :
  filter submits (snd (submit_side s side legs created))
  = map (order_request s side) legs.
Proof.
  rewrite submit_side_spec. cbn [snd]. rewrite filter_app.
  rewrite filter_submits_requests.
  destruct (Nat.eqb _ 0); [ reflexivity | ].
  now destruct (Z.eqb _ 0).
Qed.

Lemma execute_orders_proposal_spec (s : Strategy) (p : Proposal) :
  execute_orders_proposal s p =
  (if negb (Nat.eqb (List.length (buys p)) 0)
      || negb (Nat.eqb (List.length (sells p)) 0)
   then set_grid (set_timers (grid s)) s else s,
   snd (submit_side s BUY (buys p) false)
   ++ snd (submit_side s SELL (sells p)
             (negb (Nat.eqb (List.length (buys p)) 0)))).
Proof.
  unfold execute_orders_proposal.
  rewrite (submit_side_spec s BUY (buys p) false). cbn [orb].
  rewrite (submit_side_spec s SELL (sells p)). reflexivity.
Qed.

(** X15.  [execute_orders_proposal] requests one limit order per leg, the
    buys first and then the sells, each with the size and the price of its
    leg and expiring after the refresh time.  With no leg it requests
    nothing and leaves the strategy as it was; with a leg it arms the
    timers. *)
Theorem execute_orders_proposal_one_order_per_leg (s : Strategy)
  (p : Proposal) :
  filter submits (snd (execute_orders_proposal s p))
  = map (order_request s BUY) (buys p) ++ map (order_request s SELL) (sells p)
  /\ (buys p = [] -> sells p = [] ->
      execute_orders_proposal s p = (s, []))
  /\ (buys p <> [] \/ sells p <> [] ->
      fst (execute_orders_proposal s p) = set_grid (set_timers (grid s)) s).
Proof.
  rewrite execute_orders_proposal_spec. cbn [fst snd]. split; [ | split ].
  - now rewrite filter_app, !filter_submits_side.
  - intros -> ->. reflexivity.
  - intros [H | H].
    + destruct (buys p); [ contradiction | reflexivity ].
    + destruct (sells p); [ contradiction | ].
      cbn [List.length Nat.eqb negb]. now rewrite orb_true_r.
Qed.

Lemma execute_orders_proposal_one_order_per_leg_witness :
  let s := mkStrategy (strategy_50_50 (of_Z 10)) "ETH" "USDT" true zero
                      0 true in
  let p := mkProposal [mkPriceSize (dec 100) (Dfin false 1 (-1))] [] in
  fst (execute_orders_proposal s p) = set_grid (set_timers (grid s)) s
  /\ snd (execute_orders_proposal s p)
     = [buy_with_specific_market (Dfin false 1 (-1)) (dec 100) (of_Z 30)].
Proof.
  intros s p.
  destruct (execute_orders_proposal_one_order_per_leg s p) as (_ & _ & H).
  split; [ apply H; left; discriminate | reflexivity ].
Defined.

(** ** tick *)

Lemma create_base_proposal_frame (self : GridOrder)
  (base_balance quote_balance : float) (p : Proposal) (self' : GridOrder) :
  create_base_proposal self base_balance quote_balance = Ok (p, self') ->
  self' = set_order_amount (_order_amount self') self.
Proof.
  destruct (is_zero (add base_balance quote_balance)) eqn:Htot.
  { rewrite (create_base_proposal_zero_total _ _ _ Htot). discriminate. }
  rewrite create_base_proposal_cases by assumption.
  repeat match goal with
         | |- context [if ?c then _ else _] => destruct c
         end;
    intros [= _ <-]; try reflexivity; symmetry; apply set_order_amount_same.
Qed.

Lemma create_base_proposal_legs (self : GridOrder)
  (base_balance quote_balance : float) (p : Proposal) (self' : GridOrder) :
  create_base_proposal self base_balance quote_balance = Ok (p, self') ->
  (List.length (buys p) + List.length (sells p) <= 1)%nat.
Proof.
  destruct (is_zero (add base_balance quote_balance)) eqn:Htot.
  { rewrite (create_base_proposal_zero_total _ _ _ Htot). discriminate. }
  rewrite create_base_proposal_cases by assumption.
  repeat match goal with
         | |- context [if ?c then _ else _] => destruct c
         end;
    intros [= <- _]; cbn; lia.
Qed.

Lemma apply_price_band_result (self : GridOrder) (p p' : Proposal) :
  apply_price_band self p = Ok p' -> p' = p \/ p' = mkProposal [] [].
Proof.
  unfold apply_price_band, ceiling_check, floor_check.
  destruct (gtb (price_ceiling self) zero);
    destruct (gtb (price_floor self) zero);
    try destruct (ge_float (get_price self) (price_ceiling self)) as [[ | ] | ];
    try destruct (le_float (get_price self) (price_floor self)) as [[ | ] | ];
    cbn [bind]; intros [= <-]; auto.
Qed.

Lemma set_grid_same (s : Strategy) : set_grid (grid s) s = s.
Proof. destruct s. reflexivity. Qed.

Lemma latch_ready_grid (s : Strategy) (around : Surroundings) :
  grid (latch_ready s around) = grid s.
Proof. unfold latch_ready. now destruct (negb _). Qed.

Lemma latch_ready_flag (s : Strategy) (around : Surroundings) :
  _connector_ready (latch_ready s around)
  = _connector_ready s || ready (connector around).
Proof.
  unfold latch_ready.
  destruct (_connector_ready s) eqn:E; cbn [negb orb];
    [ exact E | reflexivity ].
Qed.

Lemma propose_before_deadline (s : Strategy) (around : Surroundings) :
  leb (_create_timestamp (grid s)) (current_timestamp (grid s)) = false ->
  propose s around = (s, Ok None).
Proof. intros H. unfold propose. now rewrite H. Qed.

(** Building the proposal assigns nothing but the order amount. *)
Lemma propose_frame (s s1 : Strategy) (around : Surroundings)
  (r : result (option Proposal)) :
  propose s around = (s1, r) ->
  s1 = set_grid (set_order_amount (_order_amount (grid s1)) (grid s)) s.
Proof.
  unfold propose.
  assert (Same : s = set_grid (set_order_amount (_order_amount (grid s))
                                 (grid s)) s).
  { now rewrite set_order_amount_same, set_grid_same. }
  destruct (leb _ _); [ | now intros [= <- _] ].
  destruct (create_base_proposal _ _ _) as [[p self] | e] eqn:E;
    [ | now intros [= <- _] ].
  apply create_base_proposal_frame in E.
  cbn [grid set_grid].
  destruct (apply_order_levels_modifiers self p);
    intros [= <- _]; cbn [grid set_grid]; now rewrite <- E.
Qed.

Lemma propose_legs (s s1 : Strategy) (around : Surroundings) (p : Proposal) :
  propose s around = (s1, Ok (Some p)) ->
  (List.length (buys p) + List.length (sells p) <= 1)%nat.
Proof.
  unfold propose. destruct (leb _ _); [ | discriminate ].
  destruct (create_base_proposal _ _ _) as [[p0 self] | e] eqn:E;
    [ | discriminate ].
  apply create_base_proposal_legs in E.
  cbn [grid set_grid]. unfold apply_order_levels_modifiers.
  destruct (apply_price_band self p0) as [p' | e] eqn:B; [ | discriminate ].
  intros [= _ <-].
  destruct (apply_price_band_result _ _ _ B) as [-> | ->];
    [ exact E | cbn; lia ].
Qed.

Lemma to_create_orders_gate (s : Strategy) (ledger : Ledger)
  (proposal : option Proposal) :
  to_create_orders s ledger proposal = true ->
  ltb (_create_timestamp (grid s)) (current_timestamp (grid s)) = true
  /\ proposal <> None.
Proof.
  unfold to_create_orders. intros H.
  repeat (apply andb_true_iff in H; destruct H as [H ?]).
  split; [ assumption | ]. destruct proposal; [ discriminate | discriminate ].
Qed.

Section TickFacts.

Variable order_age : LimitOrder -> float.

(** The second half of a tick, by cases on the gate. *)
Lemma monitor_and_create_cases (s : Strategy) (around : Surroundings)
  (proposal : option Proposal) :
  let s1 := look (after_process_tick around) s in
  let cancels := cancel_active_orders_on_max_age_limit order_age (grid s1) in
  let s2 := look (fst (after_cancels around cancels)) s1 in
  let ledger := snd (after_cancels around cancels) in
  monitor_and_create order_age s around proposal =
  match proposal with
  | Some p =>
      if to_create_orders s2 ledger proposal
      then (fst (execute_orders_proposal s2 p),
            map strategy_effect cancels ++ snd (execute_orders_proposal s2 p))
      else (s2, map strategy_effect cancels)
  | None => (s2, map strategy_effect cancels)
  end.
Proof.
  intros s1 cancels s2 ledger. unfold monitor_and_create.
  fold s1. fold cancels. subst s2 ledger.
  destruct (after_cancels around cancels) as [trackers ledger].
  cbn [fst snd]. destruct proposal as [p | ].
  - destruct (to_create_orders _ ledger (Some p)); [ | reflexivity ].
    now destruct (execute_orders_proposal _ p).
  - now destruct (to_create_orders _ ledger None).
Qed.

Lemma filter_submits_effects (cancels : list effect) :
  filter submits (map strategy_effect cancels) = [].
Proof. induction cancels; [ reflexivity | assumption ]. Qed.

(** Before the create deadline has passed, or at it, nothing is submitted
    and the timers stay. *)
Lemma monitor_and_create_quiet (s : Strategy) (around : Surroundings)
  (proposal : option Proposal) :
  ltb (_create_timestamp (grid s)) (current_timestamp (grid s)) = false ->
  filter submits (snd (monitor_and_create order_age s around proposal)) = []
  /\ _create_timestamp (grid (fst (monitor_and_create order_age s around
                                     proposal)))
     = _create_timestamp (grid s)
  /\ _cancel_timestamp (grid (fst (monitor_and_create order_age s around
                                     proposal)))
     = _cancel_timestamp (grid s).
Proof.
  intros Hgate. rewrite monitor_and_create_cases.
  destruct proposal as [p | ].
  - destruct (to_create_orders _ _ _) eqn:T.
    + apply to_create_orders_gate in T. destruct T as [T _].
      cbn in T. congruence.
    + cbn [fst snd]. split; [ apply filter_submits_effects | now split ].
  - cbn [fst snd]. split; [ apply filter_submits_effects | now split ].
Qed.

Lemma tick_body_quiet (s : Strategy) (around : Surroundings) :
  ltb (_create_timestamp (grid s)) (current_timestamp (grid s)) = false ->
  filter submits (snd (fst (tick_body order_age s around))) = []
  /\ _create_timestamp (grid (fst (fst (tick_body order_age s around))))
     = _create_timestamp (grid s)
  /\ _cancel_timestamp (grid (fst (fst (tick_body order_age s around))))
     = _cancel_timestamp (grid s).
Proof.
  intros Hgate. unfold tick_body.
  pose proof (latch_ready_grid s around) as G.
  set (s0 := latch_ready s around) in *.
  destruct (negb (_connector_ready s0)).
  { cbn [fst snd]. rewrite G. repeat split. }
  destruct (propose s0 around) as [s1 [proposal | e]] eqn:P.
  - apply propose_frame in P.
    assert (G1 : _create_timestamp (grid s1) = _create_timestamp (grid s)
                 /\ _cancel_timestamp (grid s1) = _cancel_timestamp (grid s)
                 /\ current_timestamp (grid s1) = current_timestamp (grid s)).
    { rewrite P, G. repeat split. }
    destruct G1 as (Gc & Gk & Gt).
    destruct (monitor_and_create_quiet s1 around proposal) as (Q1 & Q2 & Q3).
    { now rewrite Gc, Gt. }
    destruct (monitor_and_create order_age s1 around proposal) as [s2 out].
    cbn [fst snd] in *. rewrite Q2, Q3. auto.
  - apply propose_frame in P. cbn [fst snd]. rewrite P, G. repeat split.
Qed.

End TickFacts.

Lemma tick_unfold (order_age : LimitOrder -> float) (s : Strategy)
  (timestamp : float) (around : Surroundings) :
  tick order_age s timestamp around =
  (set_last_timestamp timestamp (fst (fst (tick_body order_age s around))),
   snd (fst (tick_body order_age s around)),
   snd (tick_body order_age s around)).
Proof.
  unfold tick. now destruct (tick_body order_age s around) as [[s' out] r].
Qed.

Lemma filter_submits_execute (s : Strategy) (p : Proposal) :
  filter submits (snd (execute_orders_proposal s p))
  = map (order_request s BUY) (buys p) ++ map (order_request s SELL) (sells p).
Proof.
  rewrite execute_orders_proposal_spec. cbn [snd].
  now rewrite filter_app, !filter_submits_side.
Qed.

Lemma is_zero_mul (x y : float) :
  is_zero x = true -> isfinite y = true -> is_zero (mul x y) = true.
Proof. destruct x; try discriminate. now destruct y. Qed.

Lemma is_zero_add (x y : float) :
  is_zero x = true -> is_zero y = true -> is_zero (add x y) = true.
Proof.
  destruct x as [sx | | | ]; try discriminate.
  destruct y as [sy | | | ]; try discriminate.
  now destruct sx, sy.
Qed.

Lemma set_connector_ready_same (s : Strategy) :
  set_connector_ready (_connector_ready s) s = s.
Proof. destruct s. reflexivity. Qed.

(** X16.  A connector that is not ready.  While the connector has never
    been seen ready and still is not, [tick] warns and does nothing else:
    no proposal is built, nothing is cancelled or submitted, and the
    strategy object changes in its last timestamp only. *)
Theorem tick_waits_for_connector (order_age : LimitOrder -> float)
  (s : Strategy) (timestamp : float) (around : Surroundings) :
  _connector_ready s = false ->
  ready (connector around) = false ->
  tick order_age s timestamp around
  = (set_last_timestamp timestamp s, [logger_warning_not_ready], None).
Proof.
  intros Hs Hc.
  assert (E : set_connector_ready false s = s).
  { rewrite <- Hs. apply set_connector_ready_same. }
  unfold tick, tick_body, latch_ready.
  rewrite Hs, Hc. cbn [negb]. rewrite E, Hs. reflexivity.
Qed.

Lemma tick_waits_for_connector_witness :
  let s := mkStrategy (strategy_50_50 (of_Z 10)) "ETH" "USDT" false zero
                      0 true in
  let around :=
    mkSurroundings (mkConnector false (fun _ => dec 0))
      (tracker_7_8, mkHanging (fun _ => false))
      (fun _ => (tracker_7_8, mkHanging (fun _ => false),
                 mkLedger [] (fun _ => false))) in
  tick (fun _ => of_Z 5) s (of_Z 10) around
  = (set_last_timestamp (of_Z 10) s, [logger_warning_not_ready], None).
Proof.
  intros s around.
  apply (tick_waits_for_connector (fun _ => of_Z 5) s (of_Z 10) around);
    reflexivity.
Defined.

(** X17.  The create deadline.  Unless the create timestamp is strictly
    before the clock reading, [tick] submits no order and leaves both
    timers as they were, whatever the balances, the prices and the trackers
    are and whether or not it raises; the last timestamp is recorded all the
    same. *)
Theorem tick_respects_create_deadline (order_age : LimitOrder -> float)
  (s : Strategy) (timestamp : float) (around : Surroundings) :
  ltb (_create_timestamp (grid s)) (current_timestamp (grid s)) = false ->
  let after := fst (fst (tick order_age s timestamp around)) in
  let out := snd (fst (tick order_age s timestamp around)) in
  filter submits out = []
  /\ _create_timestamp (grid after) = _create_timestamp (grid s)
  /\ _cancel_timestamp (grid after) = _cancel_timestamp (grid s)
  /\ _last_timestamp after = timestamp.
Proof.
  intros Hgate after out. subst after out. rewrite tick_unfold.
  cbn [fst snd set_last_timestamp grid _last_timestamp].
  destruct (tick_body_quiet order_age s around Hgate) as (Q1 & Q2 & Q3).
  auto.
Qed.

(** At the create deadline itself, with a ready connector and holdings
    worth 1000 of quote only: a proposal is built, nothing is submitted. *)
Lemma tick_respects_create_deadline_witness :
  let s := mkStrategy (set_create_timestamp (of_Z 10) (strategy_50_50 (of_Z 10)))
                      "ETH" "USDT" true zero 0 true in
  let around :=
    mkSurroundings
      (mkConnector true
         (fun asset => if String.eqb asset "USDT" then dec 1000 else dec 0))
      (mkTracker (fun _ => None) None, mkHanging (fun _ => false))
      (fun _ => (mkTracker (fun _ => None) None, mkHanging (fun _ => false),
                 mkLedger [] (fun _ => false))) in
  filter submits (snd (fst (tick (fun _ => of_Z 5) s (of_Z 10) around))) = []
  /\ _order_amount (grid (fst (fst (tick (fun _ => of_Z 5) s (of_Z 10) around))))
     = S754_finite false 7205759403792794 (-56).
Proof.
  intros s around. split.
  - apply (tick_respects_create_deadline (fun _ => of_Z 5) s (of_Z 10) around).
    reflexivity.
  - vm_compute. reflexivity.
Defined.

(** X18.  The cooldown after a fill.  After a buy or a sell has completed
    at clock reading [t] for an order the tracker holds, a tick at any clock
    reading that is not strictly after [t + filled_order_delay] submits no
    order. *)
Theorem tick_waits_after_fill (order_age : LimitOrder -> float)
  (s : Strategy) (ev : OrderCompletedEvent) (o : LimitOrder)
  (later timestamp : float) (around : Surroundings) :
  get_limit_order (_sb_order_tracker (grid s)) (order_id ev) = Some o ->
  ltb (add (current_timestamp (grid s)) (_filled_order_delay (grid s))) later
  = false ->
  let after_buy :=
    set_grid (set_current_timestamp later
                (fst (did_complete_buy_order (grid s) ev))) s in
  let after_sell :=
    set_grid (set_current_timestamp later
                (fst (did_complete_sell_order (grid s) ev))) s in
  filter submits (snd (fst (tick order_age after_buy timestamp around))) = []
  /\ filter submits (snd (fst (tick order_age after_sell timestamp around)))
     = [].
Proof.
  intros H Hlater after_buy after_sell. subst after_buy after_sell.
  rewrite !tick_unfold. cbn [fst snd]. split.
  - apply tick_body_quiet.
    rewrite (did_complete_buy_order_known (grid s) ev o H). exact Hlater.
  - apply tick_body_quiet.
    rewrite (did_complete_sell_order_known (grid s) ev o H). exact Hlater.
Qed.

(** A buy fills at 1000, cooldown 60: the tick at 1060 submits nothing. *)
Lemma tick_waits_after_fill_witness :
  let s := mkStrategy
             (set_sb_order_tracker tracker_7_8 (strategy_50_50 (of_Z 1000)))
             "ETH" "USDT" true zero 0 true in
  let around :=
    mkSurroundings
      (mkConnector true
         (fun asset => if String.eqb asset "USDT" then dec 1000 else dec 0))
      (mkTracker (fun _ => None) None, mkHanging (fun _ => false))
      (fun _ => (mkTracker (fun _ => None) None, mkHanging (fun _ => false),
                 mkLedger [] (fun _ => false))) in
  let after_buy :=
    set_grid (set_current_timestamp (of_Z 1060)
                (fst (did_complete_buy_order (grid s) (mkCompleted "buy-7"))))
             s in
  filter submits
    (snd (fst (tick (fun _ => of_Z 5) after_buy (of_Z 1060) around))) = [].
Proof.
  intros s around after_buy.
  apply (tick_waits_after_fill (fun _ => of_Z 5) s (mkCompleted "buy-7")
           buy_order_7 (of_Z 1060) (of_Z 1060) around); reflexivity.
Defined.

(** X19.  An empty account.  Once the create deadline has been reached and
    the connector is ready, a tick that finds both available balances at
    zero, the reference price being finite, raises ZeroDivisionError: it
    cancels and submits nothing, and the [finally] clause still records the
    last timestamp. *)
Theorem tick_raises_on_empty_account (order_age : LimitOrder -> float)
  (s : Strategy) (timestamp : float) (around : Surroundings) :
  _connector_ready s = true \/ ready (connector around) = true ->
  leb (_create_timestamp (grid s)) (current_timestamp (grid s)) = true ->
  is_zero (to_float (get_available_balance (connector around) (base_asset s)))
  = true ->
  is_zero (to_float (get_available_balance (connector around) (quote_asset s)))
  = true ->
  isfinite (to_float (get_price (grid s))) = true ->
  tick order_age s timestamp around
  = (set_last_timestamp timestamp (latch_ready s around), [],
     Some ZeroDivisionError).
Proof.
  intros Hready Hdue Hbase Hquote Hprice.
  unfold tick, tick_body.
  pose proof (latch_ready_grid s around) as G.
  pose proof (latch_ready_flag s around) as F.
  assert (A : base_asset (latch_ready s around) = base_asset s
              /\ quote_asset (latch_ready s around) = quote_asset s).
  { unfold latch_ready. now destruct (negb _). }
  destruct A as [Ab Aq].
  set (s0 := latch_ready s around) in *.
  assert (R : _connector_ready s0 = true).
  { rewrite F. destruct Hready as [-> | ->]; [ reflexivity | apply orb_true_r ]. }
  rewrite R. cbn [negb]. unfold propose. rewrite G, Ab, Aq, Hdue.
  rewrite create_base_proposal_zero_total; [ reflexivity | ].
  apply is_zero_add; [ now apply is_zero_mul | assumption ].
Qed.

Lemma tick_raises_on_empty_account_witness :
  let s := mkStrategy (strategy_50_50 (of_Z 10)) "ETH" "USDT" false zero
                      0 true in
  let around :=
    mkSurroundings (mkConnector true (fun _ => dec 0))
      (mkTracker (fun _ => None) None, mkHanging (fun _ => false))
      (fun _ => (mkTracker (fun _ => None) None, mkHanging (fun _ => false),
                 mkLedger [] (fun _ => false))) in
  tick (fun _ => of_Z 5) s (of_Z 10) around
  = (set_last_timestamp (of_Z 10) (set_connector_ready true s), [],
     Some ZeroDivisionError).
Proof.
  intros s around.
  apply (tick_raises_on_empty_account (fun _ => of_Z 5) s (of_Z 10) around);
    try reflexivity.
  right. reflexivity.
Defined.

Lemma mul_nan_r (x y : float) : isnan y = true -> isnan (mul x y) = true.
Proof. destruct y; try discriminate. now destruct x. Qed.

Lemma to_float_nan (d : Decimal) : is_nan d = true -> isnan (to_float d) = true.
Proof. now destruct d. Qed.

(** X20.  No reference price.  Once the create deadline has been reached
    and the connector is ready, a tick whose reference price is NaN (an
    empty order book) raises InvalidOperation as soon as a price ceiling or a
    price floor is configured: the empty proposal reaches the price band,
    which compares the NaN price with the bound. *)
Theorem tick_raises_without_reference_price
  (order_age : LimitOrder -> float) (s : Strategy) (timestamp : float)
  (around : Surroundings) :
  _connector_ready s = true \/ ready (connector around) = true ->
  leb (_create_timestamp (grid s)) (current_timestamp (grid s)) = true ->
  is_nan (get_price (grid s)) = true ->
  gtb (price_ceiling (grid s)) zero = true
  \/ gtb (price_floor (grid s)) zero = true ->
  tick order_age s timestamp around
  = (set_last_timestamp timestamp (latch_ready s around), [],
     Some InvalidOperation).
Proof.
  intros Hready Hdue Hnan Hband.
  unfold tick, tick_body.
  pose proof (latch_ready_grid s around) as G.
  pose proof (latch_ready_flag s around) as F.
  set (s0 := latch_ready s around) in *.
  assert (R : _connector_ready s0 = true).
  { rewrite F. destruct Hready as [-> | ->]; [ reflexivity | apply orb_true_r ]. }
  rewrite R. cbn [negb]. unfold propose. rewrite G, Hdue.
  rewrite create_base_proposal_of_nan
    by (left; apply mul_nan_r; now apply to_float_nan).
  cbn [grid set_grid]. unfold apply_order_levels_modifiers.
  rewrite (apply_price_band_nan_price _ _ Hnan Hband).
  rewrite <- G, set_grid_same. reflexivity.
Qed.

Lemma tick_raises_without_reference_price_witness :
  let s :=
    mkStrategy
      (new_strategy empty_book (dec 100) (dec 50) (dec 50) (dec 50) (dec 1)
                    MidPrice (of_Z 10))
      "ETH" "USDT" true zero 0 true in
  let around :=
    mkSurroundings (mkConnector true (fun _ => dec 5))
      (mkTracker (fun _ => None) None, mkHanging (fun _ => false))
      (fun _ => (mkTracker (fun _ => None) None, mkHanging (fun _ => false),
                 mkLedger [] (fun _ => false))) in
  tick (fun _ => of_Z 5) s (of_Z 10) around
  = (set_last_timestamp (of_Z 10) s, [], Some InvalidOperation).
Proof.
  intros s around.
  apply (tick_raises_without_reference_price (fun _ => of_Z 5) s (of_Z 10)
           around); try reflexivity; left; reflexivity.
Defined.

Lemma monitor_and_create_orders (order_age : LimitOrder -> float)
  (s : Strategy) (around : Surroundings) (proposal : option Proposal) :
  filter submits (snd (monitor_and_create order_age s around proposal)) = []
  \/ exists p s2,
       proposal = Some p
       /\ _create_timestamp (grid s2) = _create_timestamp (grid s)
       /\ _cancel_timestamp (grid s2) = _cancel_timestamp (grid s)
       /\ current_timestamp (grid s2) = current_timestamp (grid s)
       /\ _order_refresh_time (grid s2) = _order_refresh_time (grid s)
       /\ ltb (_create_timestamp (grid s)) (current_timestamp (grid s)) = true
       /\ monitor_and_create order_age s around proposal
          = (fst (execute_orders_proposal s2 p),
             map strategy_effect
               (cancel_active_orders_on_max_age_limit order_age
                  (grid (look (after_process_tick around) s)))
             ++ snd (execute_orders_proposal s2 p)).
Proof.
  rewrite monitor_and_create_cases.
  destruct proposal as [p | ];
    [ | left; cbn [snd]; apply filter_submits_effects ].
  destruct (to_create_orders _ _ _) eqn:T;
    [ | left; cbn [snd]; apply filter_submits_effects ].
  right. exists p.
  match type of T with
  | to_create_orders ?s2 _ _ = true => exists s2
  end.
  apply to_create_orders_gate in T. destruct T as [T _]. cbn in T.
  split; [ reflexivity | ].
  split; [ reflexivity | ]. split; [ reflexivity | ].
  split; [ reflexivity | ]. split; [ reflexivity | ].
  split; [ exact T | reflexivity ].
Qed.

(** X21.  One order at most.  Whatever it finds, a tick submits at most one
    order, so never a buy and a sell together. *)
Theorem tick_submits_at_most_one_order (order_age : LimitOrder -> float)
  (s : Strategy) (timestamp : float) (around : Surroundings) :
  (List.length
     (filter submits (snd (fst (tick order_age s timestamp around)))) <= 1)%nat.
Proof.
  rewrite tick_unfold. cbn [fst snd]. unfold tick_body.
  set (s0 := latch_ready s around).
  destruct (negb (_connector_ready s0)); [ cbn; lia | ].
  destruct (propose s0 around) as [s1 [proposal | e]] eqn:P; [ | cbn; lia ].
  destruct (monitor_and_create_orders order_age s1 around proposal)
    as [Q | (p & s2 & -> & _ & _ & _ & _ & _ & E)].
  - destruct (monitor_and_create order_age s1 around proposal) as [s2 out].
    cbn [fst snd] in *. rewrite Q. cbn. lia.
  - rewrite E. cbn [fst snd].
    rewrite filter_app, filter_submits_effects, filter_submits_execute.
    cbn [app]. rewrite length_app, !length_map.
    exact (propose_legs _ _ _ _ P).
Qed.

(** X22.  The refresh period.  When a tick at clock reading [t] has
    submitted an order, it did not raise, the create timestamp is
    [t + order_refresh_time], and a later tick at any clock reading that is
    not strictly after [t + order_refresh_time] submits nothing. *)
Theorem tick_waits_after_creating_orders (order_age : LimitOrder -> float)
  (s : Strategy) (timestamp : float) (around : Surroundings) :
  let after := fst (fst (tick order_age s timestamp around)) in
  let next_cycle :=
    add (current_timestamp (grid s)) (_order_refresh_time (grid s)) in
  filter submits (snd (fst (tick order_age s timestamp around))) <> [] ->
  snd (tick order_age s timestamp around) = None
  /\ _create_timestamp (grid after) = next_cycle
  /\ forall (later timestamp' : float) (around' : Surroundings),
       ltb next_cycle later = false ->
       filter submits
         (snd (fst (tick order_age
                      (set_grid (set_current_timestamp later (grid after))
                                after)
                      timestamp' around')))
       = [].
Proof.
  intros after next_cycle Hsub.
  assert (Core : snd (tick order_age s timestamp around) = None
                 /\ _create_timestamp (grid after) = next_cycle).
  { subst after. revert Hsub. rewrite tick_unfold. cbn [fst snd].
    unfold tick_body.
    pose proof (latch_ready_grid s around) as G.
    set (s0 := latch_ready s around) in *.
    destruct (negb (_connector_ready s0)); [ intros []; reflexivity | ].
    destruct (propose s0 around) as [s1 [proposal | e]] eqn:P;
      [ | intros []; reflexivity ].
    apply propose_frame in P.
    assert (G1 : _create_timestamp (grid s1) = _create_timestamp (grid s)
                 /\ current_timestamp (grid s1) = current_timestamp (grid s)
                 /\ _order_refresh_time (grid s1)
                    = _order_refresh_time (grid s)).
    { rewrite P, G. repeat split. }
    destruct G1 as (Gc & Gt & Gr).
    destruct (monitor_and_create_orders order_age s1 around proposal)
      as [Q | (p & s2 & -> & Ec & _ & Et & Er & Hlt & E)].
    - destruct (monitor_and_create order_age s1 around proposal) as [s2 out].
      cbn [fst snd] in *. intros []. exact Q.
    - rewrite E. cbn [fst snd].
      rewrite filter_app, filter_submits_effects, filter_submits_execute.
      cbn [app]. intros Hlegs. split; [ reflexivity | ].
      rewrite execute_orders_proposal_spec. cbn [fst].
      destruct (negb (Nat.eqb (List.length (buys p)) 0)
                || negb (Nat.eqb (List.length (sells p)) 0)) eqn:L.
      + cbn [set_last_timestamp grid set_grid].
        rewrite set_timers_create, Ec, Et, Er, Gc, Gt, Gr.
        rewrite Gc, Gt in Hlt. now rewrite (ltb_leb _ _ Hlt).
      + apply orb_false_iff in L. destruct L as [Lb Ls].
        destruct (buys p); [ | discriminate Lb ].
        destruct (sells p); [ | discriminate Ls ].
        now contradiction Hlegs. }
  destruct Core as [Hnone Hcreate]. split; [ exact Hnone | ].
  split; [ exact Hcreate | ].
  intros later timestamp' around' Hlater.
  rewrite tick_unfold. cbn [fst snd].
  apply tick_body_quiet. cbn [grid set_grid].
  change (ltb (_create_timestamp (grid after)) later = false).
  now rewrite Hcreate.
Qed.

(** A tick from a fresh strategy at clock reading 10, holding 1000 of
    quote and no base, with nothing resting: one buy of 0.1 at 100. *)
Lemma tick_waits_after_creating_orders_witness :
  let s := mkStrategy (strategy_50_50 (of_Z 10)) "ETH" "USDT" true zero
                      0 true in
  let around :=
    mkSurroundings
      (mkConnector true
         (fun asset => if String.eqb asset "USDT" then dec 1000 else dec 0))
      (mkTracker (fun _ => None) None, mkHanging (fun _ => false))
      (fun _ => (mkTracker (fun _ => None) None, mkHanging (fun _ => false),
                 mkLedger [] (fun _ => false))) in
  let result := tick (fun _ => of_Z 5) s (of_Z 10) around in
  snd (fst result)
  = [buy_with_specific_market
       (from_float (S754_finite false 7205759403792794 (-56))) (dec 100)
       (of_Z 30)]
  /\ snd result = None
  /\ _create_timestamp (grid (fst (fst result))) = add (of_Z 10) (of_Z 30).
Proof.
  intros s around result. split; [ vm_compute; reflexivity | ].
  destruct (tick_waits_after_creating_orders (fun _ => of_Z 5) s (of_Z 10)
              around) as (Hnone & Hcreate & _).
  - vm_compute. discriminate.
  - split; [ exact Hnone | exact Hcreate ].
Defined.

Lemma filter_empty_forall {A : Type} (f : A -> bool) (l : list A) :
  Nat.eqb (List.length (filter f l)) 0 = true ->
  forall x, In x l -> f x = false.
Proof.
  induction l as [ | a l IH]; intros H x; [ intros [] | ].
  cbn [filter] in H. destruct (f a) eqn:E; [ discriminate H | ].
  intros [<- | Hin]; [ exact E | now apply IH ].
Qed.

(** What a passed gate tells. *)
Lemma to_create_orders_clear (s : Strategy) (ledger : Ledger)
  (proposal : option Proposal) :
  to_create_orders s ledger proposal = true ->
  (_should_wait_order_cancel_confirmation s = true ->
   in_flight_cancels ledger = [])
  /\ (forall o, In o (active_non_hanging_orders (grid s)) ->
                is_potential_hanging_order ledger o = true).
Proof.
  unfold to_create_orders. intros H.
  apply andb_true_iff in H. destruct H as [H Hnone].
  apply andb_true_iff in H. destruct H as [H _].
  apply andb_true_iff in H. destruct H as [_ Hwait].
  split.
  - intros W. rewrite W in Hwait. cbn [negb orb] in Hwait.
    now destruct (in_flight_cancels ledger).
  - intros o Ho.
    pose proof (filter_empty_forall _ _ Hnone o Ho) as E.
    now apply negb_false_iff in E.
Qed.

(** X23.  No order on top of resting orders.  A tick submits an order only
    when, once it has cancelled the stale orders, the trackers show no
    active non-hanging order other than ones about to hang, and, if the
    strategy waits for cancel confirmations, no cancellation in flight; and
    only when the create timestamp is strictly before the clock reading. *)
Theorem tick_submits_only_when_clear (order_age : LimitOrder -> float)
  (s : Strategy) (timestamp : float) (around : Surroundings) :
  filter submits (snd (fst (tick order_age s timestamp around))) <> [] ->
  let cancels :=
    cancel_active_orders_on_max_age_limit order_age
      (grid (look (after_process_tick around) s)) in
  let seen := after_cancels around cancels in
  ltb (_create_timestamp (grid s)) (current_timestamp (grid s)) = true
  /\ (_should_wait_order_cancel_confirmation s = true ->
      in_flight_cancels (snd seen) = [])
  /\ (forall o,
        In o (active_non_hanging_orders (grid (look (fst seen) s))) ->
        is_potential_hanging_order (snd seen) o = true).
Proof.
  rewrite tick_unfold. cbn [fst snd]. unfold tick_body.
  pose proof (latch_ready_grid s around) as G.
  assert (W : _should_wait_order_cancel_confirmation (latch_ready s around)
              = _should_wait_order_cancel_confirmation s).
  { unfold latch_ready. now destruct (negb _). }
  set (s0 := latch_ready s around) in *.
  destruct (negb (_connector_ready s0)); [ intros []; reflexivity | ].
  destruct (propose s0 around) as [s1 [proposal | e]] eqn:P;
    [ | intros []; reflexivity ].
  apply propose_frame in P.
  rewrite monitor_and_create_cases.
  assert (C : cancel_active_orders_on_max_age_limit order_age
                (grid (look (after_process_tick around) s1))
              = cancel_active_orders_on_max_age_limit order_age
                  (grid (look (after_process_tick around) s))).
  { rewrite P, G. reflexivity. }
  rewrite C.
  set (cancels := cancel_active_orders_on_max_age_limit order_age
                    (grid (look (after_process_tick around) s))).
  destruct proposal as [p | ];
    [ | cbn [fst snd]; rewrite filter_submits_effects; intros []; reflexivity ].
  destruct (to_create_orders _ _ _) eqn:T;
    [ | cbn [fst snd]; rewrite filter_submits_effects; intros [];
        reflexivity ].
  intros _.
  destruct (to_create_orders_gate _ _ _ T) as [Hlt _].
  destruct (to_create_orders_clear _ _ _ T) as [Hwait Hclear].
  split; [ | split ].
  - cbn in Hlt. rewrite P, G in Hlt. exact Hlt.
  - intros Hw. apply Hwait. cbn. rewrite P. cbn. rewrite W. exact Hw.
  - intros o Ho. apply Hclear. exact Ho.
Qed.

Lemma tick_submits_only_when_clear_witness :
  let s := mkStrategy (strategy_50_50 (of_Z 10)) "ETH" "USDT" true zero
                      0 true in
  let around :=
    mkSurroundings
      (mkConnector true
         (fun asset => if String.eqb asset "USDT" then dec 1000 else dec 0))
      (mkTracker (fun _ => None) None, mkHanging (fun _ => false))
      (fun _ => (mkTracker (fun _ => None) None, mkHanging (fun _ => false),
                 mkLedger [] (fun _ => false))) in
  ltb (_create_timestamp (grid s)) (current_timestamp (grid s)) = true.
Proof.
  intros s around.
  apply (tick_submits_only_when_clear (fun _ => of_Z 5) s (of_Z 10) around).
  vm_compute. discriminate.
Defined.

(** Resting orders hold a tick back: with the two tracked orders still
    active and young, the same tick submits nothing. *)
Example tick_with_resting_orders :
  let s := mkStrategy (strategy_50_50 (of_Z 10)) "ETH" "USDT" true zero
                      0 true in
  let around :=
    mkSurroundings
      (mkConnector true
         (fun asset => if String.eqb asset "USDT" then dec 1000 else dec 0))
      (tracker_7_8, mkHanging (fun _ => false))
      (fun _ => (tracker_7_8, mkHanging (fun _ => false),
                 mkLedger [] (fun _ => false))) in
  snd (fst (tick (fun _ => of_Z 5) s (of_Z 10) around)) = [].
Proof. vm_compute. reflexivity. Qed.

(** Orders created at 10, a fill at 20, the clock at 30. *)
Lemma timers_ordered_always_witness :
  timers_ordered
    (run (new_strategy book_100 (dec 0) (dec 0) (dec 50) (dec 50) (dec 1)
                       MidPrice (of_Z 10))
         [OrdersCreated;
          TrackerUpdate tracker_7_8;
          ClockReading (of_Z 20);
          BuyOrderCompleted (mkCompleted "buy-7");
          ClockReading (of_Z 30)]).
Proof.
  apply (timers_ordered_always book_100 (dec 0) (dec 0) (dec 50) (dec 50)
           (dec 1) MidPrice (of_Z 10)); reflexivity.
Defined.
